(** * WebSitemapScraper: a model of the sitemap walker and its URL table

    The development embeds [src/my_packages/WebSitemapScraper.py]:
    the string methods the scraper calls, the pandas frame operations it
    relies on, the recursive walker [process_sitemap], root discovery
    [collect_sitemaps], the decomposition [process_links] and the export
    [export_to_csv].

    Conventions.
    - A Python [str] is a [string]; its characters are the code points
      below 256, the characters of [Ascii.ascii].
    - Python objects that are mutated in place (data frames) live in a
      store and are handled through references.
    - Methods of the class run in the monad [Py]: they thread the
      interpreter state, may raise, and recursion is bounded by fuel. *)

From Stdlib Require Import Ascii String.
From stdpp Require Import base option list relations strings pretty gmap fin_maps.

Open Scope string_scope.
Open Scope list_scope.

(** ** Python string methods *)

Module PyStr.

(** [s.startswith(p)] *)
Fixpoint startswith (p s : string) : bool :=
  match p, s with
  | EmptyString, _ => true
  | String a p', String b s' => if Ascii.eqb a b then startswith p' s' else false
  | String _ _, EmptyString => false
  end.

(** [s[n:]] for [0 <= n] *)
Fixpoint drop (n : nat) (s : string) : string :=
  match n, s with
  | 0, _ => s
  | S n', String _ s' => drop n' s'
  | S _, EmptyString => EmptyString
  end.

(** [s.endswith(q)] *)
Definition endswith (q s : string) : bool :=
  Nat.leb (String.length q) (String.length s)
  && String.eqb (drop (String.length s - String.length q) s) q.

(** [c in chars] for a single character [c] *)
Fixpoint char_in (c : ascii) (chars : string) : bool :=
  match chars with
  | EmptyString => false
  | String d chars' => Ascii.eqb c d || char_in c chars'
  end.

(** [s.lstrip(chars)] *)
Fixpoint lstrip (chars s : string) : string :=
  match s with
  | EmptyString => EmptyString
  | String c s' => if char_in c chars then lstrip chars s' else s
  end.

(** [s.rstrip(chars)] *)
Fixpoint rstrip (chars s : string) : string :=
  match s with
  | EmptyString => EmptyString
  | String c s' =>
      match rstrip chars s' with
      | EmptyString => if char_in c chars then EmptyString else String c EmptyString
      | r => String c r
      end
  end.

(** [s.strip(chars)] *)
Definition strip (chars s : string) : string := rstrip chars (lstrip chars s).

(** The characters [str.strip()] removes when called without argument,
    among the code points below 256: tab, line feed, vertical tab, form
    feed, carriage return, the four separators 28..31, the space, the
    next-line character 133 and the no-break space 160. *)
Definition whitespace : string :=
  String (ascii_of_nat 9) (String (ascii_of_nat 10) (String (ascii_of_nat 11)
  (String (ascii_of_nat 12) (String (ascii_of_nat 13) (String (ascii_of_nat 28)
  (String (ascii_of_nat 29) (String (ascii_of_nat 30) (String (ascii_of_nat 31)
  (String (ascii_of_nat 32) (String (ascii_of_nat 133) (String (ascii_of_nat 160)
  EmptyString))))))))))).

(** [s.split(sep)] for a non-empty separator: the pieces between the
    non-overlapping occurrences of [sep], scanned from the left.
    [split_from sep skip s] returns the piece that starts at the current
    position and the pieces after it; [skip] counts the characters of a
    separator that was recognised and still has to be stepped over. *)
Fixpoint split_from (sep : string) (skip : nat) (s : string) : string * list string :=
  match s with
  | EmptyString => (EmptyString, [])
  | String c s' =>
      match skip with
      | S k => split_from sep k s'
      | 0 =>
          if startswith sep s
          then let '(p, ps) := split_from sep (String.length sep - 1) s' in
               (EmptyString, p :: ps)
          else let '(p, ps) := split_from sep 0 s' in
               (String c p, ps)
      end
  end.

Definition split (sep s : string) : list string :=
  let '(p, ps) := split_from sep 0 s in p :: ps.

(** [sep.join(pieces)] *)
Fixpoint join (sep : string) (pieces : list string) : string :=
  match pieces with
  | [] => EmptyString
  | [p] => p
  | p :: ps => p +:+ sep +:+ join sep ps
  end.

End PyStr.

(** The newline character, for [split("\n")]. *)
Definition newline : string := String (ascii_of_nat 10) EmptyString.

(** ** pandas data frames

    A cell is a Python [str] or null ([None] and [NaN] are not told
    apart: both are missing values for pandas and both are written as an
    empty field).  A frame has its column labels in order and its rows,
    each row aligned with the labels.  Row labels are the default
    [RangeIndex] [0 .. n-1], as in every frame the scraper builds. *)

Definition cell : Type := option string.

Record DataFrame : Type := mkFrame {
  columns : list string;
  data : list (list cell)
}.

(** A row as [iterrows] yields it: a [Series] of labelled values. *)
Definition Series : Type := list (string * cell).

Module Frame.

(** Position of the first column labelled [c]. *)
Fixpoint col_index (c : string) (cols : list string) : option nat :=
  match cols with
  | [] => None
  | d :: cols' => if String.eqb c d then Some 0 else S <$> col_index c cols'
  end.

(** [df[c] = None] for a label that is not yet a column, and the way
    [.loc] enlarges a frame: the new column is appended and is null in
    every row. *)
Definition add_column (c : string) (df : DataFrame) : DataFrame :=
  {| columns := columns df ++ [c];
     data := map (fun row => row ++ [None]) (data df) |}.

(** [.loc] with a list of column labels first makes sure that every
    label is a column, adding the missing ones in the order given. *)
Fixpoint ensure_columns (cs : list string) (df : DataFrame) : DataFrame :=
  match cs with
  | [] => df
  | c :: cs' =>
      ensure_columns cs'
        (if bool_decide (c ∈ columns df) then df else add_column c df)
  end.

(** Write [v] in row [idx], column [c] (an existing column). *)
Definition set_cell (idx : nat) (c : string) (v : cell) (df : DataFrame) : DataFrame :=
  match col_index c (columns df) with
  | Some k => {| columns := columns df;
                 data := alter (fun row => <[k := v]> row) idx (data df) |}
  | None => df
  end.

Fixpoint set_cells (idx : nat) (cs : list string) (vs : list cell) (df : DataFrame) : DataFrame :=
  match cs, vs with
  | c :: cs', v :: vs' => set_cells idx cs' vs' (set_cell idx c v df)
  | _, _ => df
  end.

(** [df.loc[idx, cs] = vs] where [idx] is a row label of [df] and [vs]
    has one value per label of [cs] (the only use the scraper makes). *)
Definition loc_set (idx : nat) (cs : list string) (vs : list cell) (df : DataFrame) : DataFrame :=
  set_cells idx cs vs (ensure_columns cs df).

(** [df.iterrows()]: the pairs of a row label and the row as a Series.
    pandas takes the values when the iteration starts. *)
Definition iterrows (df : DataFrame) : list (nat * Series) :=
  imap (fun idx row => (idx, zip (columns df) row)) (data df).

(** The values a Series holds under the label [c], in order. *)
Fixpoint series_values (c : string) (record : Series) : list cell :=
  match record with
  | [] => []
  | (d, v) :: record' =>
      if String.eqb c d then v :: series_values c record' else series_values c record'
  end.

(** What [record[c]] gives: the value under the label, or, for a label
    that occurs more than once, the Series of the values under it. *)
Inductive selection : Type :=
  | Scalar (v : cell)
  | SubSeries (vs : list cell).

(** [record[c]] on a Series; [None] stands for the KeyError. *)
Definition series_get (c : string) (record : Series) : option selection :=
  match series_values c record with
  | [] => None
  | [v] => Some (Scalar v)
  | vs => Some (SubSeries vs)
  end.

(** The string an object is, for a method call such as
    [link.startswith]: a null and a Series have no such method. *)
Definition as_str (x : selection) : option string :=
  match x with
  | Scalar (Some s) => Some s
  | _ => None
  end.


(** The values of column [c], one per row ([None] where a row has no
    such cell). *)
Definition column (c : string) (df : DataFrame) : list (option cell) :=
  map (fun row => k ← col_index c (columns df); row !! k) (data df).

End Frame.

(** [pd.DataFrame(links, columns=["Links"])] *)
Definition pd_DataFrame (links : list string) : DataFrame :=
  {| columns := ["Links"]; data := map (fun link => [Some link]) links |}.

(** ** The interpreter state and the monad of methods *)

(** Exceptions the modelled code can raise.  [ReferenceError] marks a
    reference to no object; states built by the program have none. *)
Inductive exn : Type :=
  | KeyError | AttributeError | IndexError | ValueError
  | OSError | FileExistsError | FileNotFoundError
  | NotADirectoryError | IsADirectoryError | ReferenceError.

(** The effects of a run in program order: the requests sent with
    [requests.get], and the appends to the [links] list of the sitemap
    being processed. *)
Inductive event : Type :=
  | EvGet (endpoint : string)
  | EvAppend (url_of_sitemap link : string).

(** The part of the file system the export touches: the directories
    and the CSV files below the working directory, a file being its
    records (lists of fields).  An entry is named by its path from the
    working directory. *)
Record filesystem : Type := mkFs {
  dirs : gset string;
  files : gmap string (list (list string))
}.

Record pystate : Type := mkState {
  heap : list DataFrame;                (* the frame objects, by reference *)
  sitemaps_frames : gmap string nat;    (* self.sitemaps_frames *)
  log : list event;
  fs : filesystem
}.

Inductive outcome (A : Type) : Type :=
  | Ret (a : A)
  | Raise (e : exn)
  | OutOfFuel.
Arguments Ret {A} a.
Arguments Raise {A} e.
Arguments OutOfFuel {A}.

Definition Py (A : Type) : Type := pystate -> outcome (A * pystate).

Definition ret {A} (a : A) : Py A := fun st => Ret (a, st).

Definition bind {A B} (m : Py A) (k : A -> Py B) : Py B :=
  fun st =>
    match m st with
    | Ret (a, st') => k a st'
    | Raise e => Raise e
    | OutOfFuel => OutOfFuel
    end.

Definition raise {A} (e : exn) : Py A := fun _ => Raise e.

Notation "x <- m ;; k" := (bind m (fun x => k))
  (at level 100, m at next level, right associativity).
Notation "m ;; k" := (bind m (fun _ => k))
  (at level 100, right associativity).

(** A [for] loop that carries the variables the body assigns. *)
Fixpoint for_in {A S : Type} (xs : list A) (body : A -> S -> Py S) (s : S) : Py S :=
  match xs with
  | [] => ret s
  | x :: xs' => s' <- body x s ;; for_in xs' body s'
  end.

(** Operations on the frame object a reference points to. *)
Definition get_frame (r : nat) : Py DataFrame :=
  fun st =>
    match heap st !! r with
    | Some df => Ret (df, st)
    | None => Raise ReferenceError
    end.

Definition put_frame (r : nat) (df : DataFrame) : Py unit :=
  fun st => Ret (tt, {| heap := <[r := df]> (heap st);
                        sitemaps_frames := sitemaps_frames st;
                        log := log st; fs := fs st |}).

Definition modify_frame (r : nat) (f : DataFrame -> DataFrame) : Py unit :=
  df <- get_frame r ;; put_frame r (f df).

(** A new frame object; the reference is its position in the store. *)
Definition new_frame (df : DataFrame) : Py nat :=
  fun st => Ret (length (heap st),
                 {| heap := heap st ++ [df];
                    sitemaps_frames := sitemaps_frames st;
                    log := log st; fs := fs st |}).

Definition emit (e : event) : Py unit :=
  fun st => Ret (tt, {| heap := heap st;
                        sitemaps_frames := sitemaps_frames st;
                        log := log st ++ [e]; fs := fs st |}).

(** [self.sitemaps_frames[identifier] = dataframe] *)
Definition store_frame (identifier : string) (dataframe : nat) : Py unit :=
  fun st => Ret (tt, {| heap := heap st;
                        sitemaps_frames := <[identifier := dataframe]> (sitemaps_frames st);
                        log := log st; fs := fs st |}).

(** Lift a lookup that fails with [e]. *)
Definition or_raise {A} (e : exn) (o : option A) : Py A :=
  match o with
  | Some a => ret a
  | None => raise e
  end.

(** ** [process_links]: the URL-depth decomposition *)

Definition url_prefix : string := "https://www.datacamp.com/".

(** The label ["subdir" + str(j + 1)]. *)
Definition subdir (j : nat) : string := "subdir" +:+ pretty (j + 1).

(** The local function [split_url]; [prefix] is the variable
    [url_prefix] it closes over. *)
Definition split_url (prefix link : string) : list cell :=
  if PyStr.startswith prefix link
  then map Some (PyStr.split "/" (PyStr.strip "/" (PyStr.drop (String.length prefix) link)))
  else [None].

(** The body of the first loop, for one [(idx, record)] of [iterrows].
    [record["Links"]] raises KeyError without such a column, and neither
    a null nor a Series (what a duplicated label gives) has a method
    [startswith]. *)
Definition process_links_row (prefix : string) (data_frame : nat)
    (row : nat * Series) (maximum_depth : nat) : Py nat :=
  let '(idx, record) := row in
  link <- or_raise KeyError (Frame.series_get "Links" record) ;;
  link <- or_raise AttributeError (Frame.as_str link) ;;
  let subdir_levels := split_url prefix link in
  let maximum_depth := Nat.max maximum_depth (length subdir_levels) in
  modify_frame data_frame
    (Frame.loc_set idx (map subdir (seq 0 (length subdir_levels))) subdir_levels) ;;
  ret maximum_depth.

(** The body of the second loop. *)
Definition process_links_fill (data_frame : nat) (depth : nat) (_ : unit) : Py unit :=
  let column_name := subdir depth in
  df <- get_frame data_frame ;;
  if bool_decide (column_name ∈ columns df)
  then ret tt
  else put_frame data_frame (Frame.add_column column_name df).

Definition process_links_with (prefix : string) (data_frame : nat) : Py nat :=
  let maximum_depth := 0 in
  df <- get_frame data_frame ;;
  maximum_depth <- for_in (Frame.iterrows df) (process_links_row prefix data_frame) maximum_depth ;;
  for_in (seq 0 maximum_depth) (process_links_fill data_frame) tt ;;
  ret data_frame.

Definition process_links : nat -> Py nat := process_links_with url_prefix.

(** ** The walker *)

Section Walker.

(** The site as the scraper sees it.  [web endpoint] is the body that
    [requests.get(endpoint, headers=headers)] returns when the request
    succeeds with a 2xx status, and [None] when [requests.get] or
    [raise_for_status] raises a [RequestException].  [find_all_loc xml]
    is the text of the elements that
    [BeautifulSoup(xml, "xml").find_all("loc")] returns, in document
    order. *)
Variable web : string -> option string.
Variable find_all_loc : string -> list string.

(** The message that the handler prints is not part of the state. *)
Definition retrieve_web_data (endpoint : string) : Py string :=
  emit (EvGet endpoint) ;;
  match web endpoint with
  | Some text => ret text
  | None => ret ""          (* except RequestException: return "" *)
  end.

(** The body of the loop over [parser.find_all("loc")];
    [process_sitemap] is the method, for the recursive call. *)
Definition process_sitemap_entry (process_sitemap : string -> Py unit)
    (url_of_sitemap : string) (location : string) (links : list string)
    : Py (list string) :=
  emit (EvAppend url_of_sitemap location) ;;
  let links := links ++ [location] in
  (if PyStr.endswith ".xml" location then process_sitemap location else ret tt) ;;
  ret links.

(** [fuel] bounds the depth of the recursion. *)
Fixpoint process_sitemap (fuel : nat) (url_of_sitemap : string) : Py unit :=
  match fuel with
  | 0 => fun _ => OutOfFuel
  | S fuel' =>
      sitemap_xml <- retrieve_web_data url_of_sitemap ;;
      let parser := find_all_loc sitemap_xml in
      links <- for_in parser
                 (process_sitemap_entry (process_sitemap fuel') url_of_sitemap) [] ;;
      identifier <- or_raise IndexError (last (PyStr.split "/" url_of_sitemap)) ;;
      dataframe <- new_frame (pd_DataFrame links) ;;
      dataframe <- process_links dataframe ;;
      store_frame identifier dataframe
  end.

(** The body of the loop over the lines of robots.txt. *)
Definition collect_sitemaps_line (fuel : nat) (line : string) (_ : unit) : Py unit :=
  if PyStr.startswith "Sitemap:" line
  then
    field <- or_raise IndexError (PyStr.split ": " line !! 1) ;;
    let sitemap_link := PyStr.strip PyStr.whitespace field in
    process_sitemap fuel sitemap_link
  else ret tt.

Definition collect_sitemaps (fuel : nat) (base_url : string) : Py unit :=
  robots_content <- retrieve_web_data (base_url +:+ "/robots.txt") ;;
  for_in (PyStr.split newline robots_content) (collect_sitemaps_line fuel) tt.

End Walker.

(** ** The export

    The file system is the tree below the working directory: an entry
    is named by its path from there, the names on the way joined by
    slashes ([relpath]), and [disk_ok] says that the entries form a
    tree.  Permissions, links, and the limits that a file system sets
    on the length of a name are not part of the model. *)

(** [os.path.join(a, b)] on a POSIX system. *)
Definition os_path_join (a b : string) : string :=
  if PyStr.startswith "/" b then b
  else if String.eqb a "" || PyStr.endswith "/" a then a +:+ b
  else a +:+ "/" +:+ b.

(** The character that no path may hold. *)
Definition NUL : ascii := ascii_of_nat 0.

(** The name of an entry in its directory. *)
Definition name_ok (name : string) : bool :=
  negb (String.eqb name "") && negb (String.eqb name ".")
  && negb (String.eqb name "..")
  && negb (PyStr.char_in "/" name) && negb (PyStr.char_in NUL name).

Definition relpath (path : string) : bool :=
  forallb name_ok (PyStr.split "/" path).

(** The directory that holds the entry [path]: the path up to its last
    slash, [""] being the working directory. *)
Definition parent_dir (path : string) : string :=
  PyStr.join "/" (removelast (PyStr.split "/" path)).

(** The directories on the way to the entry [path], from the top. *)
Definition ancestors (path : string) : list string :=
  let pieces := PyStr.split "/" path in
  map (fun n => PyStr.join "/" (take n pieces)) (seq 1 (length pieces - 1)).

(** [path] is a directory in which an entry can be looked up: the
    working directory or a directory of the tree. *)
Definition dir_at (disk : filesystem) (path : string) : bool :=
  String.eqb path "" || bool_decide (path ∈ dirs disk).

Definition disk_ok (disk : filesystem) : Prop :=
  (forall path, path ∈ dirs disk ->
     relpath path = true /\ dir_at disk (parent_dir path) = true)
  /\ (forall path, path ∈ dom (files disk) ->
        relpath path = true /\ (path ∉ dirs disk)
        /\ dir_at disk (parent_dir path) = true).

(** The error of a path walk that does not reach the directory of
    [path]: ENOTDIR when a name on the way is a regular file, ENOENT
    when it is missing. *)
Definition walk_error (disk : filesystem) (path : string) : exn :=
  if existsb (fun q => bool_decide (q ∈ dom (files disk))) (ancestors path)
  then NotADirectoryError
  else FileNotFoundError.

(** [os.path.isdir(path)] *)
Definition os_path_isdir (path : string) : Py bool :=
  fun st => Ret (bool_decide (path ∈ dirs (fs st)), st).

(** [os.mkdir(path)]: the path must be a string the system call takes,
    the directory that is to hold the entry must exist, and the name
    must be free. *)
Definition os_mkdir (path : string) : Py unit :=
  fun st =>
    let disk := fs st in
    if PyStr.char_in NUL path then Raise ValueError
    else if String.eqb path "" then Raise FileNotFoundError
    else if negb (dir_at disk (parent_dir path)) then Raise (walk_error disk path)
    else if bool_decide (path ∈ dirs disk) || bool_decide (path ∈ dom (files disk))
    then Raise FileExistsError
    else Ret (tt, {| heap := heap st; sitemaps_frames := sitemaps_frames st;
                     log := log st;
                     fs := {| dirs := {[path]} ∪ dirs disk;
                              files := files disk |} |}).

(** A null is written as the empty field ([na_rep=""]). *)
Definition render (v : cell) : string := default "" v.

(** The records [DataFrame.to_csv] writes: the header, then a record
    per row; with [index=True] each record starts with the row label. *)
Definition to_csv_records (df : DataFrame) (index : bool) : list (list string) :=
  if index
  then ("" :: columns df) :: imap (fun i row => pretty i :: map render row) (data df)
  else columns df :: map (map render) (data df).

(** [frame.to_csv(file_path, index=index)]: creates or replaces the
    file.  pandas first checks that the parent of the path is a
    directory and raises OSError if not; then the file is opened for
    writing. *)
Definition to_csv (frame : nat) (file_path : string) (index : bool) : Py unit :=
  df <- get_frame frame ;;
  fun st =>
    let disk := fs st in
    if negb (dir_at disk (parent_dir file_path)) then Raise OSError
    else if PyStr.char_in NUL file_path then Raise ValueError
    else if String.eqb file_path "" then Raise FileNotFoundError
    else if bool_decide (file_path ∈ dirs disk) then Raise IsADirectoryError
    else Ret (tt, {| heap := heap st; sitemaps_frames := sitemaps_frames st;
                     log := log st;
                     fs := {| dirs := dirs disk;
                              files := <[file_path := to_csv_records df index]>
                                         (files disk) |} |}).

Definition export_to_csv_item (folder : string) (item : string * nat) (_ : unit) : Py unit :=
  let '(map_url, frame) := item in
  let file_name := map_url +:+ ".csv" in
  let file_path := os_path_join folder file_name in
  to_csv frame file_path false.

(** [items()] goes through the dictionary in insertion order; the map
    does not keep that order, and the files written do not depend on
    it. *)
Definition export_to_csv (folder : string) : Py unit :=
  isdir <- os_path_isdir folder ;;
  (if negb isdir then os_mkdir folder else ret tt) ;;
  items <- (fun st => Ret (map_to_list (sitemaps_frames st), st)) ;;
  for_in items (export_to_csv_item folder) tt.

(** The state in which [__init__] starts: no frame, an empty
    [sitemaps_frames], nothing logged. *)
Definition init_state (disk : filesystem) : pystate :=
  {| heap := []; sitemaps_frames := ∅; log := []; fs := disk |}.

(** [WebSitemapScraper(base_url)] *)
Definition WebSitemapScraper (web : string -> option string)
    (find_all_loc : string -> list string) (fuel : nat) (base_url : string)
    (disk : filesystem) : outcome (unit * pystate) :=
  collect_sitemaps web find_all_loc fuel base_url (init_state disk).

(** The table stored under an identifier. *)
Definition table_of (st : pystate) (identifier : string) : option DataFrame :=
  r ← sitemaps_frames st !! identifier; heap st !! r.

(** ** The decomposed table, as the specification describes it

    The specification gives the table of a URL list in two passes: the
    segment list of every URL and their maximal length [M], then one row
    per URL with its segments in [subdir1 .. subdirM], padded with nulls
    on the right.  [decomposed] is that table; [process_links] is proved
    to build it. *)

Definition max_depth (prefix : string) (links : list string) : nat :=
  max_list (map (fun link => length (split_url prefix link)) links).

Definition padded (M : nat) (segments : list cell) : list cell :=
  segments ++ replicate (M - length segments) None.

Definition decomposed (prefix : string) (links : list string) : DataFrame :=
  let M := max_depth prefix links in
  {| columns := "Links" :: map subdir (seq 0 M);
     data := map (fun link => Some link :: padded M (split_url prefix link)) links |}.

(** The cell of row [idx] in the column labelled [c]. *)
Definition frame_cell (df : DataFrame) (idx : nat) (c : string) : option cell :=
  row ← data df !! idx; k ← Frame.col_index c (columns df); row !! k.

(** ** What the two loops of [process_links] do to the frame object

    [row_step] is one turn of the first loop for a row whose [Links]
    cell is the string [link]; [fill_step] one turn of the second. *)

Definition row_step (prefix : string) (acc : nat * DataFrame) (row : nat * string)
    : nat * DataFrame :=
  let subdir_levels := split_url prefix row.2 in
  (Nat.max acc.1 (length subdir_levels),
   Frame.loc_set row.1 (map subdir (seq 0 (length subdir_levels))) subdir_levels acc.2).

Definition fill_step (df : DataFrame) (depth : nat) : DataFrame :=
  if bool_decide (subdir depth ∈ columns df) then df
  else Frame.add_column (subdir depth) df.

Definition links_effect (prefix : string) (links : list string) (df : DataFrame) : DataFrame :=
  let acc := foldl (row_step prefix) (0, df) (imap pair links) in
  foldl fill_step acc.2 (seq 0 acc.1).

Definition with_heap (st : pystate) (h : list DataFrame) : pystate :=
  {| heap := h; sitemaps_frames := sitemaps_frames st; log := log st; fs := fs st |}.



(** ** Orders of the effects in a log

    [recorded_then_visited tr]: every append of a nested sitemap is
    directly followed by the request for that sitemap.
    [visited_then_recorded tr]: every append of a nested sitemap comes
    after a request for that sitemap.
    [settled tr]: [tr] does not end with the append of a nested
    sitemap. *)

Definition recorded_then_visited (tr : list event) : Prop :=
  forall i owner l,
    tr !! i = Some (EvAppend owner l) -> PyStr.endswith ".xml" l = true ->
    tr !! S i = Some (EvGet l).

Definition visited_then_recorded (tr : list event) : Prop :=
  forall i owner l,
    tr !! i = Some (EvAppend owner l) -> PyStr.endswith ".xml" l = true ->
    exists j, j < i /\ tr !! j = Some (EvGet l).

Definition settled (tr : list event) : Prop :=
  forall owner l, last tr = Some (EvAppend owner l) -> PyStr.endswith ".xml" l = false.

(** ** The states a visit goes through

    [logged e st] is [st] after the effect [e]; [stored identifier T st]
    is [st] after a new frame object of value [T] has been stored under
    [identifier].  [visits u st st'] relates the state before a call
    [process_sitemap(u)] to the state after it, following the method
    statement by statement; [entries] does so for the loop over the
    [<loc>] entries that are still to be handled. *)

Definition logged (e : event) (st : pystate) : pystate :=
  {| heap := heap st; sitemaps_frames := sitemaps_frames st;
     log := log st ++ [e]; fs := fs st |}.

Definition stored (identifier : string) (T : DataFrame) (st : pystate) : pystate :=
  {| heap := heap st ++ [T];
     sitemaps_frames := <[identifier := length (heap st)]> (sitemaps_frames st);
     log := log st; fs := fs st |}.

(** [url.split("/")[-1]] *)
Definition identifier_of (url : string) : string :=
  default "" (last (PyStr.split "/" url)).

Section Visits.

Variable web : string -> option string.
Variable find_all_loc : string -> list string.

(** The [<loc>] entries of the document at [url]; none when the
    request fails. *)
Definition locs_of (url : string) : list string :=
  find_all_loc (default "" (web url)).

Inductive visits : string -> pystate -> pystate -> Prop :=
  | visits_sitemap (u : string) (st st1 : pystate) :
      entries u (locs_of u) (logged (EvGet u) st) st1 ->
      visits u st (stored (identifier_of u) (decomposed url_prefix (locs_of u)) st1)
with entries : string -> list string -> pystate -> pystate -> Prop :=
  | entries_done (u : string) (st : pystate) :
      entries u [] st st
  | entries_nested (u l : string) (ls : list string) (st st1 st2 : pystate) :
      PyStr.endswith ".xml" l = true ->
      visits l (logged (EvAppend u l) st) st1 ->
      entries u ls st1 st2 ->
      entries u (l :: ls) st st2
  | entries_leaf (u l : string) (ls : list string) (st st2 : pystate) :
      PyStr.endswith ".xml" l = false ->
      entries u ls (logged (EvAppend u l) st) st2 ->
      entries u (l :: ls) st st2.

(** The document at [u] lists the nested sitemap [l]. *)
Definition lists_sitemap (u l : string) : Prop :=
  l ∈ locs_of u /\ PyStr.endswith ".xml" l = true.

(** The graph of these references below [u] is finite and acyclic:
    finitely many documents [nodes] hold [u] and every nested sitemap
    of one of them, and none of them reaches itself. *)
Definition finite_acyclic (u : string) : Prop :=
  exists nodes : list string,
    u ∈ nodes
    /\ (forall v l, v ∈ nodes -> lists_sitemap v l -> l ∈ nodes)
    /\ (forall v, v ∈ nodes -> ~ tc lists_sitemap v v).

(** What a visit of [u] from [st] to [st'] has recorded: the table
    stored for [u] has a row for every [<loc>] entry, in document
    order; the log of the visit starts with the request for [u], holds
    an append to the [links] of [u] for every entry, and every append of
    a nested sitemap is directly followed by the request for it. *)
Definition visit_recorded (u : string) (st st' : pystate) : Prop :=
  (exists T, table_of st' (identifier_of u) = Some T
             /\ Frame.column "Links" T = map (fun l => Some (Some l)) (locs_of u))
  /\ exists tr, log st' = log st ++ EvGet u :: tr
                /\ (forall l, l ∈ locs_of u -> EvAppend u l ∈ tr)
                /\ recorded_then_visited (EvGet u :: tr).

End Visits.

Scheme visits_mut := Minimality for visits Sort Prop
  with entries_mut := Minimality for entries Sort Prop.
Combined Scheme visits_entries_ind from visits_mut, entries_mut.

(** ** A small site, for the examples

    [loc_texts] is a parser for the examples: the text between each
    [<loc>] and the next [</loc>].  The site has a robots.txt naming a
    sitemap index and a sitemap that cannot be fetched; the index lists
    one nested sitemap and one page. *)

Definition loc_texts (xml : string) : list string :=
  map (fun piece => default "" (head (PyStr.split "</loc>" piece)))
      (tail (PyStr.split "<loc>" xml)).

Definition example_index : string := "https://www.datacamp.com/sitemap_index.xml".
Definition example_sitemap : string := "https://www.datacamp.com/sitemap1.xml".
Definition example_gone : string := "https://www.datacamp.com/gone/sitemap1.xml".

Definition example_web (endpoint : string) : option string :=
  if String.eqb endpoint "https://www.datacamp.com/robots.txt" then
    Some ("User-agent: *" +:+ newline
          +:+ "Sitemap: https://www.datacamp.com/sitemap_index.xml" +:+ newline
          +:+ "Sitemap: https://www.datacamp.com/gone/sitemap1.xml")
  else if String.eqb endpoint example_index then
    Some ("<sitemapindex>"
          +:+ "<sitemap><loc>https://www.datacamp.com/sitemap1.xml</loc></sitemap>"
          +:+ "<url><loc>https://www.datacamp.com/page-a</loc></url>"
          +:+ "</sitemapindex>")
  else if String.eqb endpoint example_sitemap then
    Some ("<urlset>"
          +:+ "<url><loc>https://www.datacamp.com/blog/2024/post</loc></url>"
          +:+ "<url><loc>https://example.com/elsewhere</loc></url>"
          +:+ "</urlset>")
  else None.

Definition empty_disk : filesystem := {| dirs := ∅; files := ∅ |}.

(** ** The collection and its files

    [collection_ok st]: every identifier of the collection is free of
    slashes and refers to a frame object that holds the table of some
    URL list.  [csv_path folder identifier] is the file the export
    writes for an identifier, [csv_of_links links] the records it
    writes for the table of [links]: the header, then for every URL the
    URL, its segments, and empty fields up to the width of the table.
    [write_all folder h items fl] is the files [fl] after the export
    loop over [items], the frame objects being [h]. *)

Definition collection_ok (st : pystate) : Prop :=
  forall identifier r, sitemaps_frames st !! identifier = Some r ->
    PyStr.char_in "/" identifier = false
    /\ exists links, heap st !! r = Some (decomposed url_prefix links).

Definition csv_path (folder identifier : string) : string :=
  os_path_join folder (identifier +:+ ".csv").

Definition dir_prefix (folder : string) : string :=
  if String.eqb folder "" || PyStr.endswith "/" folder then folder
  else folder +:+ "/".

Definition csv_of_links (links : list string) : list (list string) :=
  let M := max_depth url_prefix links in
  ("Links" :: map subdir (seq 0 M))
  :: map (fun link =>
            let segments := split_url url_prefix link in
            link :: map render segments ++ replicate (M - length segments) "")
         links.

Definition write_all (folder : string) (h : list DataFrame)
    (items : list (string * nat)) (fl : gmap string (list (list string)))
    : gmap string (list (list string)) :=
  foldl (fun fl item =>
           match h !! item.2 with
           | Some T => <[csv_path folder item.1 := to_csv_records T false]> fl
           | None => fl
           end) fl items.

Definition with_fs (st : pystate) (disk : filesystem) : pystate :=
  {| heap := heap st; sitemaps_frames := sitemaps_frames st; log := log st; fs := disk |}.

(** ** Example runs *)

Definition example_base : string := "https://www.datacamp.com".

Definition state_or_init (o : outcome (unit * pystate)) : pystate :=
  match o with
  | Ret (_, st) => st
  | _ => init_state empty_disk
  end.

(** The state after the visit of the nested sitemap, after the visit of
    the sitemap that cannot be fetched on top of it, after the visit of
    the index, and after the constructor. *)
Definition example_state_sitemap : pystate :=
  state_or_init (process_sitemap example_web loc_texts 1 example_sitemap
                   (init_state empty_disk)).

Definition example_state_gone : pystate :=
  state_or_init (process_sitemap example_web loc_texts 1 example_gone
                   example_state_sitemap).

Definition example_state_index : pystate :=
  state_or_init (process_sitemap example_web loc_texts 2 example_index
                   (init_state empty_disk)).

Definition example_state : pystate :=
  state_or_init (WebSitemapScraper example_web loc_texts 2 example_base empty_disk).

(** Two sitemaps that list each other. *)
Definition cycle_a : string := "https://www.datacamp.com/a.xml".
Definition cycle_b : string := "https://www.datacamp.com/b.xml".

Definition cycle_web (endpoint : string) : option string :=
  if String.eqb endpoint cycle_a then
    Some "<sitemapindex><sitemap><loc>https://www.datacamp.com/b.xml</loc></sitemap></sitemapindex>"
  else if String.eqb endpoint cycle_b then
    Some "<sitemapindex><sitemap><loc>https://www.datacamp.com/a.xml</loc></sitemap></sitemapindex>"
  else None.

(** A robots.txt whose only line has no space after the colon. *)
Definition nospace_web (endpoint : string) : option string :=
  if String.eqb endpoint "https://www.datacamp.com/robots.txt" then
    Some "Sitemap:https://www.datacamp.com/sitemap_index.xml"
  else example_web endpoint.



(** ** Counting in a log

    [requests_for l tr] is the number of requests for [l] in the log
    [tr]; [listings l ls] the number of times [l] occurs among the
    entries [ls]. *)

Global Instance event_eq_dec : EqDecision event.
Proof. solve_decision. Defined.

Definition requests_for (l : string) (tr : list event) : nat :=
  length (filter (fun e => e = EvGet l) tr).

Definition listings (l : string) (ls : list string) : nat :=
  length (filter (fun x => x = l) ls).

Definition with_log (st : pystate) (tr : list event) : pystate :=
  {| heap := heap st; sitemaps_frames := sitemaps_frames st; log := tr; fs := fs st |}.

(** The address of robots.txt, [f"{base_url}/robots.txt"]. *)
Definition robots_url (base_url : string) : string := base_url +:+ "/robots.txt".

(** What a run of the walker keeps: the file system, every frame
    object that exists, every identifier of the collection. *)
Definition walker_keeps (st st' : pystate) : Prop :=
  fs st' = fs st
  /\ (forall r T, heap st !! r = Some T -> heap st' !! r = Some T)
  /\ dom (sitemaps_frames st) ⊆ dom (sitemaps_frames st').

(** [sep in s], the substring test. *)
Fixpoint str_contains (sep s : string) : bool :=
  PyStr.startswith sep s
  || match s with
     | EmptyString => false
     | String _ s' => str_contains sep s'
     end.

(** A site that answers no request, and frames for the edge cases of
    [process_links]: one without a [Links] column, with and without a
    row, and one with a null in its [Links] column. *)
Definition offline_web (endpoint : string) : option string := None.

Definition state_of_frame (df : DataFrame) : pystate :=
  {| heap := [df]; sitemaps_frames := ∅; log := []; fs := empty_disk |}.

Definition frame_without_links : DataFrame :=
  {| columns := ["url"]; data := [[Some "https://www.datacamp.com/a"]] |}.

Definition frame_without_rows : DataFrame :=
  {| columns := ["url"]; data := [] |}.


(** ** The cells of a frame after [process_links]

    [written prefix links idx c]: the first loop writes the cell of row
    [idx] in column [c], that is, [c] is [subdirN] and the URL of the
    row has at least [N] segments.  [cells_kept df0 df]: every cell of
    [df0] is still in [df], which is what adding columns, and nothing
    else, leaves. *)





(** A disk whose working directory holds one regular file, and a frame
    in which the label [Links] occurs twice. *)
Definition disk_with_file : filesystem :=
  {| dirs := ∅; files := {["notes" := []]} |}.

Definition frame_with_two_links : DataFrame :=
  {| columns := ["Links"; "Links"];
     data := [[Some "https://www.datacamp.com/a"; Some "https://www.datacamp.com/b"]] |}.

(** * Properties *)

(** ** Strings *)

Module PyStrFacts.
Import PyStr.

Lemma app_nil_l (s : string) : "" +:+ s = s.
Proof. reflexivity. Qed.

Lemma app_cons (a : ascii) (s t : string) : String a s +:+ t = String a (s +:+ t).
Proof. reflexivity. Qed.

Lemma app_empty_r (s : string) : s +:+ "" = s.
Proof. induction s as [|a s IH]; [done|]. by rewrite app_cons, IH. Qed.

Lemma startswith_app (p r : string) : startswith p (p +:+ r) = true.
Proof.
  induction p as [|a p IH]; [done|].
  rewrite app_cons. simpl. by rewrite Ascii.eqb_refl.
Qed.

Lemma startswith_inv (p s : string) :
  startswith p s = true -> exists r, s = p +:+ r.
Proof.
  revert s. induction p as [|a p IH]; intros s H; simpl in *.
  - by exists s.
  - destruct s as [|b s]; [done|].
    destruct (Ascii.eqb a b) eqn:E; [|done].
    apply Ascii.eqb_eq in E as ->.
    destruct (IH _ H) as [r ->]. by exists r.
Qed.

Lemma startswith_spec (p s : string) :
  startswith p s = true <-> exists r, s = p +:+ r.
Proof.
  split; [apply startswith_inv|]. intros [r ->]. apply startswith_app.
Qed.

Lemma startswith_false (p s : string) :
  startswith p s = false <-> ~ exists r, s = p +:+ r.
Proof.
  rewrite <- startswith_spec. by destruct (startswith p s).
Qed.

Lemma drop_app (p r : string) : drop (String.length p) (p +:+ r) = r.
Proof.
  induction p as [|a p IH]; [by destruct r|].
  by rewrite app_cons.
Qed.

Lemma split_length (sep s : string) : 1 <= length (split sep s).
Proof. unfold split. destruct (split_from sep 0 s). simpl. lia. Qed.

Lemma split_last (sep s : string) : is_Some (last (split sep s)).
Proof.
  unfold split. destruct (split_from sep 0 s) as [p ps].
  rewrite last_cons. destruct (last ps); eauto.
Qed.

(** Joining the pieces of a split at the slashes gives the string
    back. *)
Lemma join_split_slash (s : string) : join "/" (split "/" s) = s.
Proof.
  unfold split.
  induction s as [|c s IH]; [done|].
  cbn [split_from startswith String.length Nat.sub].
  destruct (split_from "/" 0 s) as [p ps].
  destruct (Ascii.eqb "/" c) eqn:E.
  - apply Ascii.eqb_eq in E as <-.
    replace (if startswith "" s then (EmptyString, p :: ps) else (String "/" p, ps))
      with (EmptyString, p :: ps) by (by destruct s).
    change (join "/" ("" :: p :: ps)) with ("" +:+ "/" +:+ join "/" (p :: ps)).
    by rewrite IH.
  - destruct ps as [|q ps]; cbn [join] in *.
    + by rewrite IH.
    + by rewrite app_cons, IH.
Qed.

Example split_slashes : split "/" "a/b//c/" = ["a"; "b"; ""; "c"; ""].
Proof. reflexivity. Qed.

Example split_empty : split "/" "" = [""].
Proof. reflexivity. Qed.

Example split_colon_space : split ": " "Sitemap: https://a/b.xml" = ["Sitemap"; "https://a/b.xml"].
Proof. reflexivity. Qed.

Example split_no_separator : split ": " "Sitemap:https://a/b.xml" = ["Sitemap:https://a/b.xml"].
Proof. reflexivity. Qed.

Example split_overlapping : split "aa" "aaaXaa" = [""; "aX"; ""].
Proof. reflexivity. Qed.

Example strip_slashes : strip "/" "//a/b//" = "a/b".
Proof. reflexivity. Qed.

Example strip_only_slashes : strip "/" "///" = "".
Proof. reflexivity. Qed.

Example endswith_xml : endswith ".xml" "sitemap.xml" = true /\ endswith ".xml" "xml" = false.
Proof. split; reflexivity. Qed.

End PyStrFacts.

(** ** [split_url] *)

(** C1. For every URL [u] and prefix [p]: when [u] starts with [p], that
    is [u = p +:+ rest], [split_url] returns the pieces of [rest],
    stripped of its leading and trailing slashes and split at the
    slashes; when [u] is [p] itself this is the list with the empty
    string as only element; and when [u] does not start with [p] the
    result is the list with a null as only element. *)
Theorem split_url_spec (p u : string) :
  (forall rest, u = p +:+ rest ->
     split_url p u = map Some (PyStr.split "/" (PyStr.strip "/" rest)))
  /\ (u = p -> split_url p u = [Some ""])
  /\ ((~ exists rest, u = p +:+ rest) -> split_url p u = [None]).
Proof.
  assert (Hpre : forall rest,
    split_url p (p +:+ rest) = map Some (PyStr.split "/" (PyStr.strip "/" rest))).
  { intros rest. unfold split_url.
    by rewrite PyStrFacts.startswith_app, PyStrFacts.drop_app. }
  split; [|split].
  - intros rest ->. apply Hpre.
  - intros ->. specialize (Hpre "").
    by rewrite PyStrFacts.app_empty_r in Hpre.
  - intros H. apply PyStrFacts.startswith_false in H.
    unfold split_url. by rewrite H.
Qed.

Lemma split_url_spec_witness :
  split_url url_prefix "https://www.datacamp.com/blog/2024/post/"
    = [Some "blog"; Some "2024"; Some "post"]
  /\ split_url url_prefix url_prefix = [Some ""]
  /\ split_url url_prefix "https://example.com/blog" = [None].
Proof.
  split; [|split].
  - exact (proj1 (split_url_spec url_prefix _) "blog/2024/post/" eq_refl).
  - exact (proj1 (proj2 (split_url_spec url_prefix _)) eq_refl).
  - apply (proj2 (proj2 (split_url_spec url_prefix _))).
    intros [rest H]. discriminate H.
Defined.

Lemma split_url_length (p u : string) : 1 <= length (split_url p u).
Proof.
  unfold split_url. destruct (PyStr.startswith p u); simpl; [|lia].
  rewrite length_map. apply PyStrFacts.split_length.
Qed.

(** ** Column labels *)

Lemma subdir_inj (i j : nat) : subdir i = subdir j -> i = j.
Proof.
  unfold subdir. intros H.
  apply (String.app_inj "subdir") in H.
  apply pretty_nat_inj in H. lia.
Qed.

Lemma subdir_ne_Links (j : nat) : subdir j <> "Links".
Proof. unfold subdir. intros H. discriminate H. Qed.

Lemma subdir_elem_of (j M : nat) :
  subdir j ∈ "Links" :: map subdir (seq 0 M) <-> j < M.
Proof.
  rewrite elem_of_cons, list_elem_of_fmap. split.
  - intros [H|(i & H & Hi)]; [by apply subdir_ne_Links in H|].
    apply subdir_inj in H as ->. apply elem_of_seq in Hi. lia.
  - intros H. right. exists j. split; [done|]. apply elem_of_seq. lia.
Qed.

Module FrameFacts.
Import Frame.





Lemma col_index_NoDup (c : string) (cols : list string) (k : nat) :
  NoDup cols -> cols !! k = Some c -> col_index c cols = Some k.
Proof.
  intros Hnd. revert k. induction Hnd as [|d cols Hd Hnd IH]; intros k Hk; [done|].
  simpl. destruct k as [|k]; simpl in Hk.
  - injection Hk as ->. by rewrite String.eqb_refl.
  - destruct (String.eqb c d) eqn:E.
    + apply String.eqb_eq in E as ->.
      destruct Hd. by eapply list_elem_of_lookup_2.
    + by rewrite (IH k Hk).
Qed.

Lemma subdirs_NoDup (M : nat) : NoDup ("Links" :: map subdir (seq 0 M)).
Proof.
  apply NoDup_cons. split.
  - intros (j & H & _)%list_elem_of_fmap. symmetry in H.
    by apply subdir_ne_Links in H.
  - apply NoDup_fmap_2; [|apply NoDup_seq].
    intros i j. apply subdir_inj.
Qed.

Lemma col_index_subdir (j M : nat) :
  j < M -> col_index (subdir j) ("Links" :: map subdir (seq 0 M)) = Some (S j).
Proof.
  intros H. apply col_index_NoDup; [apply subdirs_NoDup|].
  simpl. rewrite list_lookup_fmap, lookup_seq_lt by done. done.
Qed.

Lemma ensure_columns_app (cs cs' : list string) (df : DataFrame) :
  ensure_columns (cs ++ cs') df = ensure_columns cs' (ensure_columns cs df).
Proof. revert df. induction cs as [|c cs IH]; intros df; simpl; [done|apply IH]. Qed.

(** On a frame whose columns are [Links, subdir1 .. subdirM], asking for
    [subdir1 .. subdirk] extends the columns to [max M k] and pads every
    row with nulls. *)
Lemma ensure_columns_subdirs (k M : nat) (d : list (list cell)) :
  ensure_columns (map subdir (seq 0 k))
      {| columns := "Links" :: map subdir (seq 0 M); data := d |}
  = {| columns := "Links" :: map subdir (seq 0 (Nat.max M k));
       data := map (fun row => row ++ replicate (Nat.max M k - M) None) d |}.
Proof.
  induction k as [|k IH].
  - simpl. rewrite Nat.max_0_r, Nat.sub_diag. simpl. f_equal.
    rewrite <- (map_id d) at 1. apply map_ext. intros row.
    by rewrite app_nil_r.
  - rewrite seq_S, map_app, ensure_columns_app, IH. simpl.
    case_bool_decide as Hin.
    + apply subdir_elem_of in Hin.
      by replace (Nat.max M (S k)) with (Nat.max M k) by lia.
    + rewrite subdir_elem_of in Hin.
      replace (Nat.max M k) with k by lia.
      replace (Nat.max M (S k)) with (S k) by lia.
      rewrite (seq_S k 0), map_app.
      unfold add_column. simpl. f_equal.
      rewrite map_map. apply map_ext. intros row.
      replace (S k - M) with (S (k - M)) by lia.
      by rewrite replicate_S_end, app_assoc.
Qed.

(** Writing the values [vs] in the columns [subdir(a+1) ..] of the row
    that follows [done]. *)
Lemma set_cells_subdirs (M : nat) (done todo : list (list cell)) (vs cur : list cell) (a : nat) :
  a + length vs <= M ->
  S a + length vs <= length cur ->
  set_cells (length done) (map subdir (seq a (length vs))) vs
      {| columns := "Links" :: map subdir (seq 0 M); data := done ++ cur :: todo |}
  = {| columns := "Links" :: map subdir (seq 0 M);
       data := done ++ (take (S a) cur ++ vs ++ drop (S a + length vs) cur) :: todo |}.
Proof.
  revert a cur. induction vs as [|v vs IH]; intros a cur HM Hcur; simpl in *.
  - rewrite Nat.add_0_r. by rewrite take_drop.
  - unfold set_cell. simpl columns.
    rewrite col_index_subdir by lia. simpl data.
    rewrite alter_app_r_alt, Nat.sub_diag by lia.
    change (alter ?f 0 (cur :: todo)) with (f cur :: todo).
    rewrite IH by (rewrite ?length_insert; lia).
    do 2 f_equal. f_equal.
    destruct (cur !! S a) as [x|] eqn:E.
    2:{ apply lookup_ge_None in E. lia. }
    rewrite take_insert_lt, drop_insert_lt by lia.
    rewrite (take_S_r cur (S a) x E).
    rewrite insert_app_r_alt by (rewrite length_take; lia).
    rewrite length_take.
    replace (S a - S a `min` length cur) with 0 by lia.
    simpl. replace (S (a + S (length vs))) with (S (S (a + length vs))) by lia.
    by rewrite <- app_assoc.
Qed.

End FrameFacts.

(** ** The loops of [process_links] on a frame built from a URL list *)

Lemma padded_length (M : nat) (segments : list cell) :
  length segments <= M -> length (padded M segments) = M.
Proof. intros H. unfold padded. rewrite length_app, length_replicate. lia. Qed.

Lemma padded_extend (M M' : nat) (segments : list cell) :
  length segments <= M -> M <= M' ->
  padded M segments ++ replicate (M' - M) None = padded M' segments.
Proof.
  intros H1 H2. unfold padded. rewrite <- app_assoc, <- replicate_add.
  do 2 f_equal. lia.
Qed.

Lemma max_depth_cons (p link : string) (links : list string) :
  max_depth p (link :: links)
  = Nat.max (length (split_url p link)) (max_depth p links).
Proof. reflexivity. Qed.

Lemma max_depth_ge (p link : string) (links : list string) :
  link ∈ links -> length (split_url p link) <= max_depth p links.
Proof.
  intros H. apply max_list_elem_of_le, list_elem_of_fmap. by exists link.
Qed.

(** The first loop, with the rows of [done] already written and those of
    [todo] still blank. *)
Lemma rows_fresh (p : string) (todo done : list string) (M : nat) :
  (forall l, l ∈ done -> length (split_url p l) <= M) ->
  foldl (row_step p)
    (M, {| columns := "Links" :: map subdir (seq 0 M);
           data := map (fun l => Some l :: padded M (split_url p l)) done
                   ++ map (fun l => Some l :: replicate M None) todo |})
    (imap (fun i l => (length done + i, l)) todo)
  = (Nat.max M (max_depth p todo),
     {| columns := "Links" :: map subdir (seq 0 (Nat.max M (max_depth p todo)));
        data := map (fun l => Some l :: padded (Nat.max M (max_depth p todo)) (split_url p l))
                    (done ++ todo) |}).
Proof.
  revert done M. induction todo as [|l todo IH]; intros done M Hdone.
  - simpl. by rewrite Nat.max_0_r, !app_nil_r.
  - rewrite imap_cons. cbn [foldl].
    set (k := length (split_url p l)).
    set (M' := Nat.max M k).
    assert (Hk : 1 <= k) by apply split_url_length.
    assert (Hstep : row_step p
        (M, {| columns := "Links" :: map subdir (seq 0 M);
               data := map (fun l => Some l :: padded M (split_url p l)) done
                       ++ map (fun l => Some l :: replicate M None) (l :: todo) |})
        (length done + 0, l)
      = (M', {| columns := "Links" :: map subdir (seq 0 M');
                data := map (fun l => Some l :: padded M' (split_url p l)) (done ++ [l])
                        ++ map (fun l => Some l :: replicate M' None) todo |})).
    { unfold row_step. cbn [fst snd]. fold k. fold M'. f_equal.
      unfold Frame.loc_set. rewrite FrameFacts.ensure_columns_subdirs. fold M'.
      rewrite map_app, !map_cons, !map_map.
      assert (E1 : map (fun x => (Some x :: padded M (split_url p x)) ++ replicate (M' - M) None) done
                   = map (fun l => Some l :: padded M' (split_url p l)) done).
      { apply map_ext_in. intros x Hx. simpl. f_equal.
        apply padded_extend; [|lia]. apply Hdone. by apply list_elem_of_In. }
      assert (E2 : map (fun x => (Some x :: replicate M None) ++ replicate (M' - M) None) todo
                   = map (fun l => Some l :: replicate M' None) todo).
      { apply map_ext. intros x. simpl. f_equal.
        rewrite <- replicate_add. f_equal. lia. }
      assert (E3 : (Some l :: replicate M None) ++ replicate (M' - M) None
                   = Some l :: replicate M' None).
      { simpl. f_equal. rewrite <- replicate_add. f_equal. lia. }
      rewrite E1, E2, E3.
      replace (length done + 0)
        with (length (map (fun l => Some l :: padded M' (split_url p l)) done))
        by (rewrite length_map; lia).
      unfold k at 1.
      rewrite FrameFacts.set_cells_subdirs; fold k.
      2:{ lia. }
      2:{ simpl. rewrite length_replicate. lia. }
      f_equal. rewrite map_app, <- app_assoc. f_equal. simpl. do 2 f_equal.
      unfold padded. fold k. f_equal.
      rewrite drop_replicate. done. }
    rewrite Hstep.
    erewrite imap_ext; [rewrite (IH (done ++ [l]) M')|].
    + rewrite max_depth_cons. fold k. rewrite <- app_assoc. simpl.
      replace (Nat.max M' (max_depth p todo)) with (Nat.max M (Nat.max k (max_depth p todo)))
        by lia.
      done.
    + intros x [Hx| ->%list_elem_of_singleton]%elem_of_app.
      * specialize (Hdone x Hx). lia.
      * fold k. lia.
    + intros i x _. simpl. f_equal. rewrite length_app. simpl. lia.
Qed.

Lemma fill_noop (df : DataFrame) (depths : list nat) :
  (forall d, d ∈ depths -> subdir d ∈ columns df) ->
  foldl fill_step df depths = df.
Proof.
  induction depths as [|d depths IH]; intros H; simpl; [done|].
  unfold fill_step at 2. rewrite bool_decide_eq_true_2.
  - apply IH. intros d' Hd'. apply H. by right.
  - apply H. by left.
Qed.

(** [process_links] builds the table of the specification. *)
Lemma links_effect_fresh (p : string) (links : list string) :
  links_effect p links (pd_DataFrame links) = decomposed p links.
Proof.
  unfold links_effect, pd_DataFrame.
  assert (H := rows_fresh p links [] 0).
  cbn [length app map replicate Nat.add Nat.max seq] in H.
  change (imap (fun i l => (i, l)) links) with (imap pair links) in H.
  rewrite H by (intros l Hl; by apply elem_of_nil in Hl).
  cbn [fst snd]. apply fill_noop.
  intros d Hd. apply elem_of_seq in Hd.
  apply subdir_elem_of. lia.
Qed.

(** ** From the frame object in the store to its value *)

Lemma with_heap_id (st : pystate) : with_heap st (heap st) = st.
Proof. by destruct st. Qed.

Lemma series_values_notin (c : string) (cols : list string) (row : list cell) :
  c ∉ cols -> Frame.series_values c (zip cols row) = [].
Proof.
  revert row. induction cols as [|d cols IH]; intros row Hc; [done|].
  destruct row as [|v row]; [done|]. simpl.
  apply not_elem_of_cons in Hc as [Hne Hc].
  destruct (String.eqb_spec c d); [done|]. by apply IH.
Qed.


Lemma series_get_zip (c : string) (cols : list string) (row : list cell) :
  NoDup cols ->
  Frame.series_get c (zip cols row)
  = (k ← Frame.col_index c cols; Frame.Scalar <$> row !! k).
Proof.
  unfold Frame.series_get.
  revert row. induction cols as [|d cols IH]; intros row Hnd; [done|].
  apply NoDup_cons in Hnd as [Hd Hnd].
  destruct row as [|v row]; simpl.
  - by destruct (if String.eqb c d then Some 0 else S <$> Frame.col_index c cols).
  - destruct (String.eqb_spec c d) as [->|Hne].
    + by rewrite series_values_notin.
    + rewrite IH by done. by destruct (Frame.col_index c cols).
Qed.

(** The rows that [iterrows] yields carry the strings of the [Links]
    column. *)
Lemma iterrows_links_from (cols : list string) (rows : list (list cell))
    (ls : list string) :
  NoDup cols ->
  Forall2 (fun row l => (k ← Frame.col_index "Links" cols; row !! k) = Some (Some l)) rows ls ->
  forall n,
  Forall2 (fun row il => row.1 = il.1
                         /\ Frame.series_get "Links" row.2 = Some (Frame.Scalar (Some il.2)))
    (imap (fun idx row => (n + idx, zip cols row)) rows)
    (imap (fun i l => (n + i, l)) ls).
Proof.
  intros Hnd.
  induction 1 as [|row l rows ls Hrow H IH]; intros n; [constructor|].
  rewrite !imap_cons. constructor.
  - simpl. split; [done|]. rewrite series_get_zip by done.
    destruct (Frame.col_index "Links" cols) as [k|]; [|done].
    simpl in *. by destruct (row !! k) as [v|]; simplify_eq.
  - specialize (IH (S n)).
    erewrite imap_ext; [erewrite (imap_ext _ _ ls); [exact IH|]|];
      intros i x _; simpl; do 2 f_equal; lia.
Qed.

Lemma iterrows_links (df : DataFrame) (links : list string) :
  NoDup (columns df) ->
  Frame.column "Links" df = map (fun l => Some (Some l)) links ->
  Forall2 (fun row il => row.1 = il.1
                         /\ Frame.series_get "Links" row.2 = Some (Frame.Scalar (Some il.2)))
    (Frame.iterrows df) (imap pair links).
Proof.
  unfold Frame.column, Frame.iterrows. intros Hnd H.
  apply list_eq_Forall2 in H.
  apply (proj1 (Forall2_fmap _ _ _ _ _)) in H.
  apply (iterrows_links_from _ _ _ Hnd H 0).
Qed.

Lemma for_in_rows (p : string) (r : nat) (rows : list (nat * Series))
    (ilinks : list (nat * string)) :
  Forall2 (fun row il => row.1 = il.1
                         /\ Frame.series_get "Links" row.2 = Some (Frame.Scalar (Some il.2)))
    rows ilinks ->
  forall (m : nat) (st : pystate) (df : DataFrame),
  heap st !! r = Some df ->
  for_in rows (process_links_row p r) m st
  = Ret ((foldl (row_step p) (m, df) ilinks).1,
         with_heap st (<[r := (foldl (row_step p) (m, df) ilinks).2]> (heap st))).
Proof.
  induction 1 as [|[idx record] [idx' link] rows ilinks [Hidx Hget] _ IH];
    intros m st df Hr.
  - simpl. unfold ret. by rewrite list_insert_id, with_heap_id.
  - simpl in Hidx, Hget. subst idx'.
    cbn [for_in foldl]. unfold bind at 1.
    unfold process_links_row at 1. rewrite Hget.
    unfold bind, or_raise, ret, modify_frame, get_frame, put_frame, bind.
    cbn [Frame.as_str]. rewrite Hr.
    match goal with |- for_in _ _ _ ?st' = _ => set (st1 := st') end.
    rewrite (IH _ st1 (row_step p (m, df) (idx, link)).2).
    2:{ subst st1. simpl. apply list_lookup_insert_eq. by eapply lookup_lt_Some. }
    subst st1. unfold with_heap. simpl. by rewrite list_insert_insert_eq.
Qed.

Lemma for_in_fill (r : nat) (depths : list nat) (st : pystate) (df : DataFrame) :
  heap st !! r = Some df ->
  for_in depths (process_links_fill r) tt st
  = Ret (tt, with_heap st (<[r := foldl fill_step df depths]> (heap st))).
Proof.
  revert st df. induction depths as [|d depths IH]; intros st df Hr.
  - simpl. unfold ret. by rewrite list_insert_id, with_heap_id.
  - cbn [for_in foldl]. unfold bind at 1.
    unfold process_links_fill at 1.
    unfold bind, get_frame. rewrite Hr. unfold fill_step at 2.
    case_bool_decide.
    + unfold ret. by apply IH.
    + unfold put_frame.
      match goal with |- for_in _ _ _ ?st' = _ => set (st1 := st') end.
      rewrite (IH st1 (Frame.add_column (subdir d) df)).
      2:{ subst st1. simpl. apply list_lookup_insert_eq. by eapply lookup_lt_Some. }
      subst st1. unfold with_heap. simpl. by rewrite list_insert_insert_eq.
Qed.

(** [process_links] returns the reference it was given, and the only
    change to the state is the value of that frame object. *)
Lemma process_links_effect (p : string) (r : nat) (st : pystate)
    (df : DataFrame) (links : list string) :
  heap st !! r = Some df ->
  NoDup (columns df) ->
  Frame.column "Links" df = map (fun l => Some (Some l)) links ->
  process_links_with p r st
  = Ret (r, with_heap st (<[r := links_effect p links df]> (heap st))).
Proof.
  intros Hr Hnd Hlinks. unfold process_links_with.
  unfold bind at 1. unfold get_frame at 1. rewrite Hr.
  unfold bind at 1.
  rewrite (for_in_rows p r _ _ (iterrows_links df links Hnd Hlinks) 0 st df Hr).
  unfold bind at 1.
  erewrite for_in_fill.
  2:{ simpl. apply list_lookup_insert_eq. by eapply lookup_lt_Some. }
  unfold ret, with_heap, links_effect. simpl.
  by rewrite list_insert_insert_eq.
Qed.

(** ** The table of a URL list *)

Lemma pd_DataFrame_links (links : list string) :
  Frame.column "Links" (pd_DataFrame links) = map (fun l => Some (Some l)) links.
Proof. unfold Frame.column, pd_DataFrame. simpl. by rewrite map_map. Qed.

(** Building the frame of a URL list and decomposing it leaves the
    table [decomposed] in a new frame object. *)
Lemma process_links_new (p : string) (st : pystate) (links : list string) :
  (dataframe <- new_frame (pd_DataFrame links) ;; process_links_with p dataframe) st
  = Ret (length (heap st), with_heap st (heap st ++ [decomposed p links])).
Proof.
  unfold bind, new_frame.
  erewrite process_links_effect; [| | |apply pd_DataFrame_links].
  2:{ simpl. by apply list_lookup_middle. }
  2:{ simpl. apply NoDup_singleton. }
  unfold with_heap. simpl. rewrite links_effect_fresh.
  rewrite insert_app_r_alt, Nat.sub_diag by lia. done.
Qed.

Lemma decomposed_row (p : string) (links : list string) (idx : nat) (link : string) :
  links !! idx = Some link ->
  data (decomposed p links) !! idx
  = Some (Some link :: padded (max_depth p links) (split_url p link)).
Proof. intros H. unfold decomposed. simpl. by rewrite list_lookup_fmap, H. Qed.

Lemma decomposed_cell (p : string) (links : list string) (idx j : nat) (link : string) :
  links !! idx = Some link -> j < max_depth p links ->
  frame_cell (decomposed p links) idx (subdir j)
  = padded (max_depth p links) (split_url p link) !! j.
Proof.
  intros H Hj. unfold frame_cell. rewrite (decomposed_row _ _ _ _ H).
  unfold decomposed. cbn [columns].
  by rewrite FrameFacts.col_index_subdir.
Qed.

(** C2. The table that [process_links] produces for a list of URLs is
    rectangular.  With [M] the greatest length of a segment list, its
    columns are [Links, subdir1, ..., subdirM] in this order, every row
    has exactly these [1 + M] cells, the row of a URL holds the URL in
    [Links] and its segments in [subdir1 .. subdirk] from the left, and
    every later subdir column of that row holds null. *)
Theorem process_links_rectangular (st : pystate) (links : list string) :
  let M := max_depth url_prefix links in
  exists T : DataFrame,
    (dataframe <- new_frame (pd_DataFrame links) ;; process_links dataframe) st
      = Ret (length (heap st), with_heap st (heap st ++ [T]))
    /\ columns T = "Links" :: map subdir (seq 0 M)
    /\ length (data T) = length links
    /\ (forall row, row ∈ data T -> length row = 1 + M)
    /\ (forall idx link, links !! idx = Some link ->
          let segments := split_url url_prefix link in
          frame_cell T idx "Links" = Some (Some link)
          /\ length segments <= M
          /\ (forall j v, segments !! j = Some v -> frame_cell T idx (subdir j) = Some v)
          /\ (forall j, length segments <= j < M -> frame_cell T idx (subdir j) = Some None)).
Proof.
  intros M. exists (decomposed url_prefix links).
  split; [apply process_links_new|].
  split; [done|].
  split; [unfold decomposed; simpl; by rewrite length_map|].
  split.
  - unfold decomposed. simpl. intros row (l & -> & Hl)%list_elem_of_fmap.
    simpl. f_equal. apply padded_length. by apply max_depth_ge.
  - intros idx link Hidx segments.
    assert (Hle : length segments <= M).
    { apply max_depth_ge. by eapply list_elem_of_lookup_2. }
    split; [|split; [done|split]].
    + unfold frame_cell. by rewrite (decomposed_row _ _ _ _ Hidx).
    + intros j v Hj. pose proof (lookup_lt_Some _ _ _ Hj) as Hlt.
      rewrite (decomposed_cell _ _ _ _ _ Hidx) by (fold M; lia).
      unfold padded. by rewrite lookup_app_l.
    + intros j [Hj1 Hj2].
      rewrite (decomposed_cell _ _ _ _ _ Hidx) by done.
      unfold padded. rewrite lookup_app_r by done.
      apply lookup_replicate_2. fold segments M. lia.
Qed.

(** C10. The segment list of a URL is never empty, so the table of a
    non-empty URL list has a [subdir1] column. *)
Theorem split_url_nonempty :
  (forall p u : string, 1 <= length (split_url p u))
  /\ (forall (st : pystate) (links : list string), links <> [] ->
        exists T : DataFrame,
          (dataframe <- new_frame (pd_DataFrame links) ;; process_links dataframe) st
            = Ret (length (heap st), with_heap st (heap st ++ [T]))
          /\ length (data T) = length links
          /\ "subdir1" ∈ columns T).
Proof.
  split; [apply split_url_length|].
  intros st links Hne. exists (decomposed url_prefix links).
  split; [apply process_links_new|].
  split; [unfold decomposed; simpl; by rewrite length_map|].
  change "subdir1" with (subdir 0). apply subdir_elem_of.
  destruct links as [|l links]; [done|].
  rewrite max_depth_cons. pose proof (split_url_length url_prefix l). lia.
Qed.

(** ** The frame effect of [process_links] on an arbitrary frame *)



Section Extends.
Variable df0 : DataFrame.
Hypothesis Hlinks : Forall is_Some (Frame.column "Links" df0).









End Extends.

(** ** The cells after the primitive updates *)


Module CellFacts.
Import Frame FrameFacts.














End CellFacts.

(** ** The first loop of [process_links] on an arbitrary frame *)















(** ** The walker, statement by statement *)

Section WalkerFacts.

Variable web : string -> option string.
Variable find_all_loc : string -> list string.

Local Abbreviation run_sitemap := (process_sitemap web find_all_loc).
Local Abbreviation locs := (locs_of web find_all_loc).
Local Abbreviation visit := (visits web find_all_loc).
Local Abbreviation loop := (entries web find_all_loc).

Lemma identifier_of_last (u : string) :
  last (PyStr.split "/" u) = Some (identifier_of u).
Proof.
  unfold identifier_of. by destruct (PyStrFacts.split_last "/" u) as [x ->].
Qed.

Lemma retrieve_web_data_run (endpoint : string) (st : pystate) :
  retrieve_web_data web endpoint st
  = Ret (default "" (web endpoint), logged (EvGet endpoint) st).
Proof. unfold retrieve_web_data, bind, emit. simpl. by destruct (web endpoint). Qed.

(** What follows the loop: the table of [links] is built in a new
    frame object and stored under the identifier. *)
Lemma process_sitemap_tail (u : string) (links : list string) (st : pystate) :
  (identifier <- or_raise IndexError (last (PyStr.split "/" u)) ;;
   dataframe <- new_frame (pd_DataFrame links) ;;
   dataframe <- process_links dataframe ;;
   store_frame identifier dataframe) st
  = Ret (tt, stored (identifier_of u) (decomposed url_prefix links) st).
Proof.
  rewrite identifier_of_last. unfold bind at 1. simpl or_raise. unfold ret at 1.
  pose proof (process_links_new url_prefix st links) as H.
  unfold bind in H |- *. destruct (new_frame (pd_DataFrame links) st) as [[r st1]| |];
    try discriminate H.
  unfold process_links. rewrite H. done.
Qed.

Lemma process_sitemap_S (fuel : nat) (u : string) (st : pystate) :
  run_sitemap (S fuel) u st
  = match for_in (locs u)
            (process_sitemap_entry (run_sitemap fuel) u) []
            (logged (EvGet u) st) with
    | Ret (links, st1) =>
        Ret (tt, stored (identifier_of u) (decomposed url_prefix links) st1)
    | Raise e => Raise e
    | OutOfFuel => OutOfFuel
    end.
Proof.
  cbn [process_sitemap]. unfold bind at 1.
  rewrite retrieve_web_data_run. unfold bind at 1. fold (locs u).
  destruct (for_in _ _ _ _) as [[links st1]| |]; [|done..].
  apply process_sitemap_tail.
Qed.

Lemma process_sitemap_entry_run (rec : string -> Py unit) (u l : string)
    (links : list string) (st : pystate) :
  process_sitemap_entry rec u l links st
  = if PyStr.endswith ".xml" l
    then match rec l (logged (EvAppend u l) st) with
         | Ret (_, st1) => Ret (links ++ [l], st1)
         | Raise e => Raise e
         | OutOfFuel => OutOfFuel
         end
    else Ret (links ++ [l], logged (EvAppend u l) st).
Proof.
  unfold process_sitemap_entry, bind, emit, ret. fold (logged (EvAppend u l) st).
  destruct (PyStr.endswith ".xml" l); [|done].
  by destruct (rec l _) as [[[] st1]| |].
Qed.

(** *** A returning call is a visit *)

Lemma loop_entries (fuel : nat) (u : string) :
  (forall l st st', run_sitemap fuel l st = Ret (tt, st') -> visit l st st') ->
  forall ls acc st links st',
  for_in ls (process_sitemap_entry (run_sitemap fuel) u) acc st = Ret (links, st') ->
  links = acc ++ ls /\ loop u ls st st'.
Proof.
  intros IH. induction ls as [|l ls IHls]; intros acc st links st' H.
  - injection H as <- <-. rewrite app_nil_r. split; [done|constructor].
  - cbn [for_in] in H. unfold bind in H.
    rewrite process_sitemap_entry_run in H.
    destruct (PyStr.endswith ".xml" l) eqn:Exml.
    + destruct (run_sitemap fuel l _) as [[[] st1]| |] eqn:Erec; try discriminate H.
      apply IHls in H as [-> H]. rewrite <- app_assoc. split; [done|].
      eapply entries_nested; eauto.
    + apply IHls in H as [-> H]. rewrite <- app_assoc. split; [done|].
      by apply entries_leaf.
Qed.

Lemma process_sitemap_visits (fuel : nat) (u : string) (st st' : pystate) :
  run_sitemap fuel u st = Ret (tt, st') -> visit u st st'.
Proof.
  revert u st st'. induction fuel as [|fuel IH]; intros u st st' H; [done|].
  rewrite process_sitemap_S in H.
  destruct (for_in _ _ _ _) as [[links st1]| |] eqn:Eloop; try discriminate H.
  apply (loop_entries fuel u IH) in Eloop as [-> Eloop].
  injection H as <-. by constructor.
Qed.

(** *** The walker raises nothing *)

Lemma loop_no_raise (rec : string -> Py unit) (u : string) :
  (forall l st e, rec l st <> Raise e) ->
  forall ls acc st e,
  for_in ls (process_sitemap_entry rec u) acc st <> Raise e.
Proof.
  intros Hrec. induction ls as [|l ls IH]; intros acc st e; [done|].
  cbn [for_in]. unfold bind. rewrite process_sitemap_entry_run.
  destruct (PyStr.endswith ".xml" l); [|apply IH].
  destruct (rec l _) as [[[] st1]| |] eqn:Erec; [apply IH| |done].
  by apply Hrec in Erec.
Qed.

Lemma process_sitemap_no_raise (fuel : nat) (u : string) (st : pystate) (e : exn) :
  run_sitemap fuel u st <> Raise e.
Proof.
  revert u st e. induction fuel as [|fuel IH]; intros u st e; [done|].
  rewrite process_sitemap_S.
  destruct (for_in _ _ _ _) as [[links st1]| |] eqn:Eloop; [done| |done].
  by apply (loop_no_raise _ u IH) in Eloop.
Qed.

(** *** More fuel does not change a result *)

Lemma loop_fuel_mono (rec rec' : string -> Py unit) (u : string) :
  (forall l st r, rec l st = Ret r -> rec' l st = Ret r) ->
  forall ls acc st r,
  for_in ls (process_sitemap_entry rec u) acc st = Ret r ->
  for_in ls (process_sitemap_entry rec' u) acc st = Ret r.
Proof.
  intros Hrec. induction ls as [|l ls IH]; intros acc st r H; [done|].
  cbn [for_in] in *. unfold bind in *.
  rewrite process_sitemap_entry_run in *.
  destruct (PyStr.endswith ".xml" l); [|by apply IH].
  destruct (rec l _) as [[[] st1]| |] eqn:Erec; try discriminate H.
  rewrite (Hrec _ _ _ Erec). by apply IH.
Qed.

Lemma process_sitemap_fuel_S (fuel : nat) (u : string) (st : pystate)
    (r : unit * pystate) :
  run_sitemap fuel u st = Ret r -> run_sitemap (S fuel) u st = Ret r.
Proof.
  revert u st r. induction fuel as [|fuel IH]; intros u st r H; [done|].
  rewrite process_sitemap_S in *.
  destruct (for_in _ _ _ _) as [[links st1]| |] eqn:Eloop; try discriminate H.
  by rewrite (loop_fuel_mono _ _ u IH _ _ _ _ Eloop).
Qed.

Lemma process_sitemap_fuel_le (fuel fuel' : nat) (u : string) (st : pystate)
    (r : unit * pystate) :
  fuel <= fuel' ->
  run_sitemap fuel u st = Ret r -> run_sitemap fuel' u st = Ret r.
Proof.
  induction 1 as [|fuel' _ IH]; [done|].
  intros H. by apply process_sitemap_fuel_S, IH.
Qed.

(** *** Termination *)

Local Abbreviation lists := (lists_sitemap web find_all_loc).

Lemma finite_acyclic_sn (u : string) :
  finite_acyclic web find_all_loc u -> Acc (flip lists) u.
Proof.
  intros (nodes & Hu & Hclosed & Hacyclic).
  assert (Hgen : forall k path v,
    length nodes <= k + length path ->
    NoDup path ->
    (forall a, a ∈ path -> a ∈ nodes /\ tc lists a v) ->
    v ∈ nodes -> Acc (flip lists) v).
  { induction k as [|k IH]; intros path v Hlen Hnd Hpath Hv.
    all: assert (Hfresh : v ∉ path)
      by (intros Hin; apply (Hacyclic v Hv), (Hpath v Hin)).
    all: assert (Hsub : v :: path ⊆+ nodes)
      by (apply NoDup_submseteq; [by constructor|];
          intros x [->|Hx]%elem_of_cons; [done|by apply Hpath]).
    all: apply submseteq_length in Hsub; simpl in Hsub.
    - lia.
    - constructor. intros l Hl. unfold flip in Hl.
      apply (IH (v :: path)).
      + simpl. lia.
      + by constructor.
      + intros a [->|Ha]%elem_of_cons.
        * split; [done|by apply tc_once].
        * destruct (Hpath a Ha) as [Han Hav]. split; [done|].
          by eapply tc_r.
      + by eapply Hclosed. }
  apply (Hgen (length nodes) [] u); [simpl; lia|constructor| |done].
  intros a Ha. by apply elem_of_nil in Ha.
Qed.

Lemma loop_returns (rec : string -> Py unit) (u : string) (ls : list string) :
  (forall l, l ∈ ls -> PyStr.endswith ".xml" l = true ->
             forall st, exists st', rec l st = Ret (tt, st')) ->
  forall acc st, exists st', for_in ls (process_sitemap_entry rec u) acc st
                             = Ret (acc ++ ls, st').
Proof.
  induction ls as [|l ls IH]; intros Hrec acc st.
  - exists st. by rewrite app_nil_r.
  - cbn [for_in]. unfold bind. rewrite process_sitemap_entry_run.
    assert (Hls : forall l', l' ∈ ls -> PyStr.endswith ".xml" l' = true ->
              forall st, exists st', rec l' st = Ret (tt, st'))
      by (intros l' Hl'; apply Hrec; by right).
    destruct (PyStr.endswith ".xml" l) eqn:Exml.
    + destruct (Hrec l (list_elem_of_here _ _) Exml (logged (EvAppend u l) st))
        as [st1 ->].
      destruct (IH Hls (acc ++ [l]) st1) as [st' ->].
      exists st'. by rewrite <- app_assoc.
    + destruct (IH Hls (acc ++ [l]) (logged (EvAppend u l) st)) as [st' ->].
      exists st'. by rewrite <- app_assoc.
Qed.

(** One amount of fuel serves all the nested sitemaps of a list. *)
Lemma common_fuel (ls : list string) :
  (forall l, l ∈ ls -> PyStr.endswith ".xml" l = true ->
     exists fuel, forall st, exists st', run_sitemap fuel l st = Ret (tt, st')) ->
  exists fuel, forall l, l ∈ ls -> PyStr.endswith ".xml" l = true ->
    forall st, exists st', run_sitemap fuel l st = Ret (tt, st').
Proof.
  induction ls as [|l ls IH]; intros H.
  - exists 0. intros l Hl. by apply elem_of_nil in Hl.
  - destruct IH as [f1 Hf1]; [intros l' Hl'; apply H; by right|].
    destruct (PyStr.endswith ".xml" l) eqn:Exml.
    + destruct (H l (list_elem_of_here _ _) Exml) as [f2 Hf2].
      exists (Nat.max f1 f2). intros l' [->|Hl']%elem_of_cons Hxml st.
      * destruct (Hf2 st) as [st' Hst']. exists st'.
        eapply process_sitemap_fuel_le; [|done]. lia.
      * destruct (Hf1 l' Hl' Hxml st) as [st' Hst']. exists st'.
        eapply process_sitemap_fuel_le; [|done]. lia.
    + exists f1. intros l' [->|Hl']%elem_of_cons Hxml st; [congruence|].
      by apply Hf1.
Qed.

Lemma sn_terminates (u : string) :
  Acc (flip lists) u ->
  exists fuel, forall st, exists st', run_sitemap fuel u st = Ret (tt, st').
Proof.
  induction 1 as [u _ IH].
  destruct (common_fuel (locs u)) as [fuel Hfuel].
  { intros l Hl Hxml. apply IH. by split. }
  exists (S fuel). intros st. rewrite process_sitemap_S.
  destruct (loop_returns (run_sitemap fuel) u (locs u) Hfuel [] (logged (EvGet u) st))
    as [st1 ->].
  by eexists.
Qed.

(** *** Divergence *)

Lemma loop_out_of_fuel (rec : string -> Py unit) (u l : string) :
  (forall l' st e, rec l' st <> Raise e) ->
  PyStr.endswith ".xml" l = true ->
  (forall st, rec l st = OutOfFuel) ->
  forall ls acc st, l ∈ ls ->
  for_in ls (process_sitemap_entry rec u) acc st = OutOfFuel.
Proof.
  intros Hnr Hxml Hl. induction ls as [|l0 ls IH]; intros acc st Hin.
  - by apply elem_of_nil in Hin.
  - cbn [for_in]. unfold bind. rewrite process_sitemap_entry_run.
    destruct (PyStr.endswith ".xml" l0) eqn:Exml0.
    + destruct (rec l0 _) as [[[] st1]| |] eqn:Erec; [| |done].
      * apply IH. apply elem_of_cons in Hin as [->|Hin]; [|done].
        by rewrite Hl in Erec.
      * by apply Hnr in Erec.
    + apply IH. apply elem_of_cons in Hin as [->|Hin]; [congruence|done].
Qed.

Lemma cycle_out_of_fuel (A B : string) :
  lists A B -> lists B A ->
  forall fuel st, run_sitemap fuel A st = OutOfFuel.
Proof.
  intros [HAB HB] [HBA HA].
  assert (Hboth : forall fuel,
    (forall st, run_sitemap fuel A st = OutOfFuel)
    /\ (forall st, run_sitemap fuel B st = OutOfFuel)).
  { induction fuel as [|fuel [IHA IHB]]; [done|].
    split; intros st; rewrite process_sitemap_S.
    - rewrite (loop_out_of_fuel (run_sitemap fuel) A B); try done.
      intros l' st' e. apply process_sitemap_no_raise.
    - rewrite (loop_out_of_fuel (run_sitemap fuel) B A); try done.
      intros l' st' e. apply process_sitemap_no_raise. }
  intros fuel. apply Hboth.
Qed.

(** C5. The walker has no cycle guard.  When a sitemap [A] lists a
    sitemap [B] that lists [A] (both URLs ending in [.xml]),
    [process_sitemap(A)] returns with no depth of recursion, whatever
    the state.  When the graph of the references to nested sitemaps
    below [u] is finite and acyclic, [process_sitemap(u)] returns. *)
Theorem process_sitemap_termination :
  (forall A B : string, lists A B -> lists B A ->
     forall fuel st, run_sitemap fuel A st = OutOfFuel)
  /\ (forall u : string, finite_acyclic web find_all_loc u ->
        exists fuel, forall st, exists st', run_sitemap fuel u st = Ret (tt, st')).
Proof.
  split; [apply cycle_out_of_fuel|].
  intros u Hu. by apply sn_terminates, finite_acyclic_sn.
Qed.

End WalkerFacts.

(** ** The log of a visit *)

Lemma settled_nil : settled [].
Proof. intros owner l H. discriminate H. Qed.

Lemma rtv_nil : recorded_then_visited [].
Proof. intros i owner l H. discriminate H. Qed.

Lemma rtv_app (t1 t2 : list event) :
  recorded_then_visited t1 -> settled t1 -> recorded_then_visited t2 ->
  recorded_then_visited (t1 ++ t2).
Proof.
  intros H1 Hs H2 i owner l Hi Hxml.
  destruct (decide (i < length t1)) as [Hlt|Hge].
  - rewrite lookup_app_l in Hi by done.
    destruct (decide (S i < length t1)) as [Hlt'|Hlast].
    + rewrite lookup_app_l by done. by eapply H1.
    + specialize (Hs owner l). rewrite last_lookup in Hs.
      replace (Init.Nat.pred (length t1)) with i in Hs by lia.
      rewrite (Hs Hi) in Hxml. discriminate Hxml.
  - rewrite lookup_app_r in Hi by lia. rewrite lookup_app_r by lia.
    replace (S i - length t1) with (S (i - length t1)) by lia.
    by eapply H2.
Qed.

Lemma settled_app (t1 t2 : list event) :
  settled t1 -> settled t2 -> settled (t1 ++ t2).
Proof.
  intros H1 H2 owner l. rewrite last_app.
  destruct (last t2) eqn:E; [intros [= ->]; by eapply H2|by apply H1].
Qed.

Lemma rtv_cons_get (u : string) (tr : list event) :
  recorded_then_visited tr -> recorded_then_visited (EvGet u :: tr).
Proof.
  intros H. apply (rtv_app [EvGet u] tr); [| |done].
  - intros [|i] owner l Hi; discriminate Hi.
  - intros owner l Hl. discriminate Hl.
Qed.

Lemma rtv_cons_append (owner l : string) (tr : list event) :
  (PyStr.endswith ".xml" l = true -> exists tr', tr = EvGet l :: tr') ->
  recorded_then_visited tr -> recorded_then_visited (EvAppend owner l :: tr).
Proof.
  intros Hhead H [|i] owner' l' Hi Hxml.
  - injection Hi as <- <-. by destruct (Hhead Hxml) as [tr' ->].
  - simpl in Hi. simpl. by eapply H.
Qed.

Lemma settled_cons (e : event) (tr : list event) :
  tr <> [] -> settled tr -> settled (e :: tr).
Proof.
  intros Hne H owner l. rewrite last_cons.
  destruct (last tr) eqn:E; [intros [= ->]; by eapply H|].
  by apply last_None in E.
Qed.

Section Traversal.

Variable web : string -> option string.
Variable find_all_loc : string -> list string.

Local Abbreviation run_sitemap := (process_sitemap web find_all_loc).
Local Abbreviation locs := (locs_of web find_all_loc).
Local Abbreviation visit := (visits web find_all_loc).
Local Abbreviation loop := (entries web find_all_loc).

(** The log of a visit of [u] starts with the request for [u]; the log
    of the loop holds an append for every entry. *)
Lemma visits_log :
  (forall u st st', visit u st st' ->
     exists tr, log st' = log st ++ EvGet u :: tr
                /\ recorded_then_visited (EvGet u :: tr)
                /\ settled (EvGet u :: tr)
                /\ forall l, l ∈ locs u -> EvAppend u l ∈ tr)
  /\ (forall u ls st st', loop u ls st st' ->
        exists tr, log st' = log st ++ tr
                   /\ recorded_then_visited tr
                   /\ settled tr
                   /\ forall l, l ∈ ls -> EvAppend u l ∈ tr).
Proof.
  apply visits_entries_ind.
  - intros u st st1 _ (tr & Hlog & Hrtv & Hset & Hin).
    exists tr. simpl in *. rewrite Hlog, <- app_assoc.
    split; [done|]. split; [by apply rtv_cons_get|]. split; [|done].
    apply (settled_app [EvGet u] tr); [|done].
    intros owner l H. discriminate H.
  - intros u st. exists []. rewrite app_nil_r.
    split; [done|]. split; [apply rtv_nil|]. split; [apply settled_nil|].
    intros l Hl. by apply elem_of_nil in Hl.
  - intros u l ls st st1 st2 Hxml _ (tr1 & Hlog1 & Hrtv1 & Hset1 & _)
      _ (tr2 & Hlog2 & Hrtv2 & Hset2 & Hin2).
    exists ((EvAppend u l :: EvGet l :: tr1) ++ tr2).
    simpl in Hlog1. rewrite Hlog2, Hlog1, <- !app_assoc.
    assert (Hset : settled (EvAppend u l :: EvGet l :: tr1))
      by (by apply settled_cons).
    split; [done|]. split; [|split].
    + apply rtv_app; [|done..]. apply rtv_cons_append; [|done]. by eexists.
    + by apply settled_app.
    + intros l' [->|Hl']%elem_of_cons.
      * apply elem_of_app. left. by left.
      * apply elem_of_app. right. by apply Hin2.
  - intros u l ls st st2 Hxml _ (tr2 & Hlog2 & Hrtv2 & Hset2 & Hin2).
    exists ([EvAppend u l] ++ tr2).
    simpl in Hlog2. rewrite Hlog2, <- !app_assoc.
    assert (Hset : settled [EvAppend u l])
      by (intros owner l' [= <- <-]; done).
    split; [done|]. split; [|split].
    + apply rtv_app; [|done..].
      intros [|i] owner l' Hi Hxml'; [|discriminate Hi].
      injection Hi as <- <-. congruence.
    + by apply settled_app.
    + intros l' [->|Hl']%elem_of_cons.
      * by left.
      * right. by apply Hin2.
Qed.

Lemma table_of_stored (identifier : string) (T : DataFrame) (st : pystate) :
  table_of (stored identifier T st) identifier = Some T.
Proof.
  unfold table_of, stored. simpl. rewrite lookup_insert_eq. simpl.
  by apply list_lookup_middle.
Qed.

Lemma decomposed_links (p : string) (links : list string) :
  Frame.column "Links" (decomposed p links) = map (fun l => Some (Some l)) links.
Proof. unfold Frame.column, decomposed. simpl. by rewrite map_map. Qed.

Lemma process_sitemap_table (fuel : nat) (u : string) (st st' : pystate) :
  run_sitemap fuel u st = Ret (tt, st') ->
  table_of st' (identifier_of u) = Some (decomposed url_prefix (locs u)).
Proof.
  intros H. apply process_sitemap_visits in H. inversion H; subst.
  apply table_of_stored.
Qed.

(** C3 (as amended). A returning call [process_sitemap(u)] has stored
    for [u] a table with one row for every [<loc>] entry of its
    document, in document order, whether the entry is a nested sitemap
    or not; every entry was appended to the [links] list of [u]; and an
    entry ending in [.xml] is appended first and visited directly
    after: in the log, its append is followed by the request for it.
    When the references below [u] are finite and acyclic the call does
    return. *)
Theorem process_sitemap_records_then_visits (u : string) :
  (forall fuel st st',
     run_sitemap fuel u st = Ret (tt, st') ->
     visit_recorded web find_all_loc u st st')
  /\ (finite_acyclic web find_all_loc u ->
      exists fuel, forall st, exists st',
        run_sitemap fuel u st = Ret (tt, st')
        /\ visit_recorded web find_all_loc u st st').
Proof.
  assert (Hret : forall fuel st st',
    run_sitemap fuel u st = Ret (tt, st') ->
    visit_recorded web find_all_loc u st st').
  { intros fuel st st' H. split.
    - exists (decomposed url_prefix (locs u)).
      split; [by eapply process_sitemap_table|apply decomposed_links].
    - apply process_sitemap_visits, (proj1 visits_log) in H.
      destruct H as (tr & Hlog & Hrtv & _ & Hin). by exists tr. }
  split; [exact Hret|].
  intros Hu. destruct (sn_terminates web find_all_loc u) as [fuel Hfuel].
  { by apply finite_acyclic_sn. }
  exists fuel. intros st. destruct (Hfuel st) as [st' Hst'].
  exists st'. split; [done|]. by eapply Hret.
Qed.

(** C4. A sitemap whose request fails is not an error: the call
    returns, the document counts as one without [<loc>] entries, the
    table with the single column [Links] and no row is stored under the
    identifier of the sitemap, and the loop that made the call, over
    the entries of a parent or over the lines of robots.txt, goes on
    with what follows. *)
Theorem fetch_failure_is_silent (fuel : nat) (u : string) :
  web u = None -> find_all_loc "" = [] ->
  let empty_table := {| columns := ["Links"]; data := [] |} in
  let after st := stored (identifier_of u) empty_table (logged (EvGet u) st) in
  (forall st, run_sitemap (S fuel) u st = Ret (tt, after st)
              /\ table_of (after st) (identifier_of u) = Some empty_table)
  /\ (forall owner rest links st, PyStr.endswith ".xml" u = true ->
        for_in (u :: rest) (process_sitemap_entry (run_sitemap (S fuel)) owner) links st
        = for_in rest (process_sitemap_entry (run_sitemap (S fuel)) owner) (links ++ [u])
            (after (logged (EvAppend owner u) st)))
  /\ (forall line field lines st,
        PyStr.startswith "Sitemap:" line = true ->
        PyStr.split ": " line !! 1 = Some field ->
        PyStr.strip PyStr.whitespace field = u ->
        for_in (line :: lines) (collect_sitemaps_line web find_all_loc (S fuel)) tt st
        = for_in lines (collect_sitemaps_line web find_all_loc (S fuel)) tt (after st)).
Proof.
  intros Hweb Hloc empty_table after.
  assert (Hrun : forall st, run_sitemap (S fuel) u st = Ret (tt, after st)).
  { intros st. rewrite process_sitemap_S.
    unfold locs_of. rewrite Hweb. simpl default. by rewrite Hloc. }
  split; [|split].
  - intros st. split; [apply Hrun|apply table_of_stored].
  - intros owner rest links st Hxml.
    cbn [for_in]. unfold bind at 1.
    by rewrite process_sitemap_entry_run, Hxml, Hrun.
  - intros line field lines st Hstart Hfield Hstrip.
    cbn [for_in]. unfold bind at 1. unfold collect_sitemaps_line at 1.
    rewrite Hstart, Hfield. unfold bind, or_raise, ret.
    by rewrite Hstrip, Hrun.
Qed.

(** C6. The table of a sitemap is stored under the last piece of its
    URL split at the slashes: a returning call [process_sitemap(u)]
    leaves the table of the entries of [u] there, and the call returns
    when the references below [u] are finite and acyclic.  When two
    different sitemap URLs share that piece and are processed one
    after the other, neither call raises, and after the second the
    collection holds under the shared identifier the table of the
    second, the only one: the table of the first is no longer in the
    collection under that identifier. *)
Theorem store_keyed_by_last_segment :
  (forall fuel u st st',
     run_sitemap fuel u st = Ret (tt, st') ->
     last (PyStr.split "/" u) = Some (identifier_of u)
     /\ table_of st' (identifier_of u) = Some (decomposed url_prefix (locs u)))
  /\ (forall u, finite_acyclic web find_all_loc u ->
        exists fuel, forall st, exists st',
          run_sitemap fuel u st = Ret (tt, st')
          /\ table_of st' (identifier_of u) = Some (decomposed url_prefix (locs u)))
  /\ (forall fuel1 fuel2 u1 u2 st st1 st2,
        u1 <> u2 -> identifier_of u1 = identifier_of u2 ->
        run_sitemap fuel1 u1 st = Ret (tt, st1) ->
        run_sitemap fuel2 u2 st1 = Ret (tt, st2) ->
        table_of st1 (identifier_of u1) = Some (decomposed url_prefix (locs u1))
        /\ forall T, table_of st2 (identifier_of u1) = Some T <->
                     T = decomposed url_prefix (locs u2)).
Proof.
  split; [|split].
  - intros fuel u st st' H.
    split; [apply identifier_of_last|by eapply process_sitemap_table].
  - intros u Hu. destruct (sn_terminates web find_all_loc u) as [fuel Hfuel].
    { by apply finite_acyclic_sn. }
    exists fuel. intros st. destruct (Hfuel st) as [st' Hst'].
    exists st'. split; [done|]. by eapply process_sitemap_table.
  - intros fuel1 fuel2 u1 u2 st st1 st2 _ Hid H1 H2.
    split; [by eapply process_sitemap_table|].
    intros T. rewrite Hid, (process_sitemap_table _ _ _ _ H2).
    split; [by intros [= <-]|by intros ->].
Qed.

End Traversal.

(** C3, as the specification words it, fails: on the example site the
    index lists the nested sitemap, and the log of its visit has the
    append of that entry before any request for it. *)
Lemma visit_before_record_fails :
  exists st',
    process_sitemap example_web loc_texts 2 example_index (init_state empty_disk)
      = Ret (tt, st')
    /\ ~ visited_then_recorded (log st').
Proof.
  eexists. split; [vm_compute; reflexivity|].
  intros H.
  destruct (H 1 example_index example_sitemap eq_refl eq_refl) as (j & Hj & Hget).
  destruct j as [|j]; [discriminate Hget|lia].
Qed.

(** ** Identifiers and file names *)

Lemma string_length_app (s t : string) :
  String.length (s +:+ t) = String.length s + String.length t.
Proof.
  induction s as [|a s IH]; [done|].
  rewrite PyStrFacts.app_cons. simpl. by rewrite IH.
Qed.

Lemma string_app_assoc (s t u : string) : (s +:+ t) +:+ u = s +:+ t +:+ u.
Proof.
  induction s as [|a s IH]; [done|].
  by rewrite !PyStrFacts.app_cons, IH.
Qed.

Lemma string_app_inv_tail (s1 s2 t : string) : s1 +:+ t = s2 +:+ t -> s1 = s2.
Proof.
  revert s2. induction s1 as [|a s1 IH]; intros [|b s2] H.
  - done.
  - apply (f_equal String.length) in H.
    rewrite !string_length_app in H. simpl in H. lia.
  - apply (f_equal String.length) in H.
    rewrite !string_length_app in H. simpl in H. lia.
  - rewrite !PyStrFacts.app_cons in H. injection H as -> H.
    by rewrite (IH _ H).
Qed.

Lemma split_slash_pieces (s : string) :
  Forall (fun piece => PyStr.char_in "/" piece = false) (PyStr.split "/" s).
Proof.
  unfold PyStr.split.
  assert (H : PyStr.char_in "/" (PyStr.split_from "/" 0 s).1 = false
              /\ Forall (fun piece => PyStr.char_in "/" piece = false)
                        (PyStr.split_from "/" 0 s).2).
  { induction s as [|c s [IH1 IH2]]; [by split|].
    cbn [PyStr.split_from PyStr.startswith String.length Nat.sub].
    destruct (PyStr.split_from "/" 0 s) as [p ps]. simpl in IH1, IH2.
    destruct (Ascii.eqb "/" c) eqn:E.
    - split; [done|by constructor].
    - split; [|done]. cbn [fst PyStr.char_in]. by rewrite E, IH1. }
  destruct (PyStr.split_from "/" 0 s) as [p ps]. destruct H as [H1 H2].
  by constructor.
Qed.

Lemma identifier_of_no_slash (u : string) :
  PyStr.char_in "/" (identifier_of u) = false.
Proof.
  pose proof (split_slash_pieces u) as H.
  unfold identifier_of. destruct (PyStrFacts.split_last "/" u) as [x Hx].
  rewrite Hx. simpl. apply last_Some_elem_of in Hx.
  by apply (proj1 (Forall_forall _ _) H).
Qed.

Lemma csv_path_spec (folder identifier : string) :
  PyStr.char_in "/" identifier = false ->
  csv_path folder identifier = dir_prefix folder +:+ identifier +:+ ".csv".
Proof.
  intros H. unfold csv_path, os_path_join, dir_prefix.
  assert (Hstart : PyStr.startswith "/" (identifier +:+ ".csv") = false).
  { destruct identifier as [|c identifier]; [done|].
    rewrite PyStrFacts.app_cons.
    cbn [PyStr.char_in PyStr.startswith] in *.
    by destruct (Ascii.eqb "/" c). }
  rewrite Hstart.
  destruct (String.eqb folder "" || PyStr.endswith "/" folder); [done|].
  by rewrite string_app_assoc.
Qed.

Lemma csv_path_inj (folder id1 id2 : string) :
  PyStr.char_in "/" id1 = false -> PyStr.char_in "/" id2 = false ->
  csv_path folder id1 = csv_path folder id2 -> id1 = id2.
Proof.
  intros H1 H2. rewrite !csv_path_spec by done. intros H.
  apply String.app_inj in H. by apply string_app_inv_tail in H.
Qed.

Lemma dir_prefix_length (folder : string) :
  String.length folder <= String.length (dir_prefix folder).
Proof.
  unfold dir_prefix. destruct (_ || _); [done|].
  rewrite string_length_app. lia.
Qed.

Lemma csv_path_ne_folder (folder identifier : string) :
  PyStr.char_in "/" identifier = false -> csv_path folder identifier <> folder.
Proof.
  intros H E. rewrite csv_path_spec in E by done.
  apply (f_equal String.length) in E.
  rewrite !string_length_app in E. pose proof (dir_prefix_length folder).
  simpl in E. lia.
Qed.

Lemma join_slash_snoc (pieces : list string) (x : string) :
  exists dir, PyStr.join "/" (pieces ++ [x]) = dir +:+ x
              /\ (dir = "" \/ exists d, dir = d +:+ "/").
Proof.
  induction pieces as [|y pieces (dir & Hjoin & Hdir)].
  - exists "". split; [done|by left].
  - exists (y +:+ "/" +:+ dir). split.
    + replace (PyStr.join "/" ((y :: pieces) ++ [x]))
        with (y +:+ "/" +:+ PyStr.join "/" (pieces ++ [x]))
        by (by destruct pieces).
      by rewrite Hjoin, !string_app_assoc.
    + right. destruct Hdir as [->|[d ->]].
      * exists y. by rewrite PyStrFacts.app_empty_r.
      * exists (y +:+ "/" +:+ d). by rewrite !string_app_assoc.
Qed.

Lemma split_trailing_slash (d : string) :
  last (PyStr.split "/" (d +:+ "/")) = Some "".
Proof.
  unfold PyStr.split.
  assert (H : last (PyStr.split_from "/" 0 (d +:+ "/")).2 = Some "").
  { induction d as [|c d IH]; [done|].
    rewrite PyStrFacts.app_cons.
    cbn [PyStr.split_from PyStr.startswith String.length Nat.sub].
    destruct (PyStr.split_from "/" 0 (d +:+ "/")) as [p ps]. simpl in IH.
    destruct (Ascii.eqb "/" c).
    - replace (if PyStr.startswith "" (d +:+ "/") then (EmptyString, p :: ps)
               else (String c p, ps))
        with (EmptyString, p :: ps) by (by destruct (d +:+ "/")).
      simpl. by rewrite last_cons, IH.
    - done. }
  destruct (PyStr.split_from "/" 0 (d +:+ "/")) as [p ps]. simpl in H.
  by rewrite last_cons, H.
Qed.

(** ** Paths *)

Lemma char_in_app (c : ascii) (s t : string) :
  PyStr.char_in c (s +:+ t) = PyStr.char_in c s || PyStr.char_in c t.
Proof.
  induction s as [|a s IH]; [done|].
  rewrite PyStrFacts.app_cons. cbn [PyStr.char_in]. rewrite IH.
  by destruct (Ascii.eqb c a).
Qed.

Lemma split_no_slash (s : string) :
  PyStr.char_in "/" s = false -> PyStr.split "/" s = [s].
Proof.
  unfold PyStr.split. intros H.
  assert (E : PyStr.split_from "/" 0 s = (s, [])).
  { induction s as [|c s IH]; [done|].
    cbn [PyStr.char_in] in H. apply orb_false_iff in H as [Hc H].
    cbn [PyStr.split_from PyStr.startswith]. rewrite Hc, (IH H). done. }
  by rewrite E.
Qed.

Lemma split_slash_app (a b : string) :
  PyStr.split "/" (a +:+ "/" +:+ b) = PyStr.split "/" a ++ PyStr.split "/" b.
Proof.
  unfold PyStr.split.
  induction a as [|c a IH].
  - rewrite PyStrFacts.app_nil_l.
    change ("/" +:+ b) with (String "/" b).
    cbn [PyStr.split_from PyStr.startswith String.length Nat.sub].
    rewrite Ascii.eqb_refl.
    replace (PyStr.startswith "" b) with true by (by destruct b).
    by destruct (PyStr.split_from "/" 0 b).
  - rewrite PyStrFacts.app_cons.
    cbn [PyStr.split_from PyStr.startswith String.length Nat.sub].
    destruct (PyStr.split_from "/" 0 (a +:+ "/" +:+ b)) as [p ps].
    destruct (PyStr.split_from "/" 0 a) as [q qs].
    destruct (PyStr.split_from "/" 0 b) as [r rs].
    simpl in IH. injection IH as -> ->.
    destruct (Ascii.eqb "/" c).
    + replace (PyStr.startswith "" (a +:+ "/" +:+ b)) with true
        by (by destruct (a +:+ "/" +:+ b)).
      replace (PyStr.startswith "" a) with true by (by destruct a).
      done.
    + done.
Qed.

Lemma endswith_slash_inv (s : string) :
  PyStr.endswith "/" s = true -> exists d, s = d +:+ "/".
Proof.
  unfold PyStr.endswith. intros [_ H%String.eqb_eq]%andb_true_iff.
  cbn [String.length] in H.
  induction s as [|c s IH].
  - discriminate H.
  - destruct s as [|c' s].
    + simpl in H. injection H as ->. by exists "".
    + destruct IH as [d Hd].
      { cbn [String.length Nat.sub PyStr.drop] in H |- *.
        by rewrite Nat.sub_0_r in *. }
      exists (String c d). by rewrite PyStrFacts.app_cons, <- Hd.
Qed.

Lemma name_ok_app_csv (identifier : string) :
  PyStr.char_in "/" identifier = false ->
  PyStr.char_in NUL identifier = false ->
  name_ok (identifier +:+ ".csv") = true.
Proof.
  intros Hslash Hnul. unfold name_ok.
  rewrite !char_in_app, Hslash, Hnul.
  assert (Hlen : 4 <= String.length (identifier +:+ ".csv"))
    by (rewrite string_length_app; simpl; lia).
  destruct (String.eqb_spec (identifier +:+ ".csv") "") as [E|_];
    [rewrite E in Hlen; simpl in Hlen; lia|].
  destruct (String.eqb_spec (identifier +:+ ".csv") ".") as [E|_];
    [rewrite E in Hlen; simpl in Hlen; lia|].
  destruct (String.eqb_spec (identifier +:+ ".csv") "..") as [E|_];
    [rewrite E in Hlen; simpl in Hlen; lia|].
  reflexivity.
Qed.

(** A path of the tree does not end with a slash, so [os.path.join]
    puts one after it. *)
Lemma relpath_dir_prefix (folder : string) :
  relpath folder = true -> dir_prefix folder = folder +:+ "/".
Proof.
  intros H. unfold dir_prefix, relpath in *.
  destruct (String.eqb_spec folder "") as [->|_]; [discriminate H|].
  destruct (PyStr.endswith "/" folder) eqn:E; [|done].
  apply endswith_slash_inv in E as [d ->].
  pose proof (split_trailing_slash d) as Hlast.
  apply last_Some in Hlast as [pieces Hpieces]. rewrite Hpieces in H.
  rewrite forallb_app in H. apply andb_true_iff in H as [_ H]. discriminate H.
Qed.

Lemma csv_path_relpath_spec (folder identifier : string) :
  relpath folder = true -> PyStr.char_in "/" identifier = false ->
  csv_path folder identifier = folder +:+ "/" +:+ (identifier +:+ ".csv").
Proof.
  intros H Hslash.
  by rewrite csv_path_spec, relpath_dir_prefix, string_app_assoc.
Qed.

Lemma csv_path_split (folder identifier : string) :
  relpath folder = true -> PyStr.char_in "/" identifier = false ->
  PyStr.split "/" (csv_path folder identifier)
  = PyStr.split "/" folder ++ [identifier +:+ ".csv"].
Proof.
  intros H Hslash. rewrite csv_path_relpath_spec, split_slash_app by done.
  f_equal. apply split_no_slash. by rewrite char_in_app, Hslash.
Qed.

(** The file of an identifier is an entry of the folder. *)
Lemma csv_path_parent (folder identifier : string) :
  relpath folder = true -> PyStr.char_in "/" identifier = false ->
  parent_dir (csv_path folder identifier) = folder.
Proof.
  intros H Hslash. unfold parent_dir.
  rewrite csv_path_split, removelast_last by done.
  apply PyStrFacts.join_split_slash.
Qed.

Lemma csv_path_relpath (folder identifier : string) :
  relpath folder = true -> PyStr.char_in "/" identifier = false ->
  PyStr.char_in NUL identifier = false ->
  relpath (csv_path folder identifier) = true.
Proof.
  intros H Hslash Hnul. unfold relpath in *.
  rewrite csv_path_split, forallb_app, H by done. simpl.
  by rewrite name_ok_app_csv.
Qed.

Lemma join_slash_NUL (pieces : list string) :
  forallb name_ok pieces = true -> PyStr.char_in NUL (PyStr.join "/" pieces) = false.
Proof.
  induction pieces as [|x pieces IH]; [done|].
  cbn [forallb]. intros [Hx H]%andb_true_iff.
  assert (Hnul : PyStr.char_in NUL x = false).
  { unfold name_ok in Hx. apply andb_true_iff in Hx as [_ Hx].
    by apply negb_true_iff in Hx. }
  destruct pieces as [|y pieces]; [done|].
  change (PyStr.join "/" (x :: y :: pieces))
    with (x +:+ "/" +:+ PyStr.join "/" (y :: pieces)).
  rewrite !char_in_app, Hnul, (IH H). reflexivity.
Qed.

Lemma relpath_NUL (path : string) :
  relpath path = true -> PyStr.char_in NUL path = false.
Proof.
  intros H. rewrite <- (PyStrFacts.join_split_slash path). by apply join_slash_NUL.
Qed.

Lemma relpath_nonempty (path : string) : relpath path = true -> path <> "".
Proof. by intros H ->. Qed.

Lemma name_ok_slash (name : string) :
  name_ok name = true -> PyStr.char_in "/" name = false.
Proof.
  unfold name_ok. intros H.
  apply andb_true_iff in H as [H _]. apply andb_true_iff in H as [_ H].
  by apply negb_true_iff in H.
Qed.

(** A plain name is a path of the tree, in the working directory. *)
Lemma name_ok_relpath (name : string) :
  name_ok name = true -> relpath name = true /\ parent_dir name = "".
Proof.
  intros H. unfold relpath, parent_dir.
  rewrite (split_no_slash _ (name_ok_slash _ H)). simpl. by rewrite H.
Qed.

(** ** The export *)

Lemma to_csv_records_decomposed (links : list string) :
  to_csv_records (decomposed url_prefix links) false = csv_of_links links.
Proof.
  unfold to_csv_records, csv_of_links, decomposed. simpl. f_equal.
  rewrite map_map. apply map_ext. intros link. simpl. f_equal.
  unfold padded. rewrite map_app. f_equal.
  change (map render ?l) with (render <$> l). by rewrite fmap_replicate.
Qed.

Lemma write_all_untouched (folder : string) (h : list DataFrame)
    (items : list (string * nat)) (fl : gmap string (list (list string)))
    (path : string) :
  (forall item, item ∈ items -> path <> csv_path folder item.1) ->
  write_all folder h items fl !! path = fl !! path.
Proof.
  revert fl. induction items as [|item items IH]; intros fl H; [done|].
  unfold write_all in *. cbn [foldl]. rewrite IH.
  - destruct (h !! item.2); [|done].
    apply lookup_insert_ne. intros E. by apply (H item (list_elem_of_here _ _)).
  - intros item' Hitem'. apply H. by right.
Qed.

Lemma write_all_written (folder : string) (h : list DataFrame)
    (items : list (string * nat)) (fl : gmap string (list (list string)))
    (identifier : string) (r : nat) (T : DataFrame) :
  NoDup items.*1 ->
  (forall item, item ∈ items -> PyStr.char_in "/" item.1 = false) ->
  (identifier, r) ∈ items -> h !! r = Some T ->
  write_all folder h items fl !! csv_path folder identifier
  = Some (to_csv_records T false).
Proof.
  revert fl. induction items as [|item items IH]; intros fl Hnd Hok Hin HT.
  - by apply elem_of_nil in Hin.
  - rewrite fmap_cons in Hnd. apply NoDup_cons in Hnd as [Hfresh Hnd].
    assert (Hok' : forall item', item' ∈ items -> PyStr.char_in "/" item'.1 = false)
      by (intros item' Hitem'; apply Hok; by right).
    apply elem_of_cons in Hin as [<-|Hin].
    + change (write_all folder h ((identifier, r) :: items) fl)
        with (write_all folder h items
                (match h !! r with
                 | Some T => <[csv_path folder identifier := to_csv_records T false]> fl
                 | None => fl
                 end)).
      rewrite HT, write_all_untouched; [apply lookup_insert_eq|].
      intros item' Hitem' E.
      apply csv_path_inj in E;
        [|apply (Hok (identifier, r)); by left|by apply Hok'].
      apply Hfresh. simpl. rewrite E. apply list_elem_of_fmap. by exists item'.
    + unfold write_all. cbn [foldl]. by apply IH.
Qed.

Lemma write_all_dom (folder : string) (h : list DataFrame)
    (items : list (string * nat)) (fl : gmap string (list (list string)))
    (path : string) :
  path ∈ dom (write_all folder h items fl) ->
  path ∈ dom fl \/ exists item, item ∈ items /\ path = csv_path folder item.1.
Proof.
  intros Hin.
  destruct (decide (path ∈ (fun item => csv_path folder item.1) <$> items)) as [Hp|Hp].
  - right. apply list_elem_of_fmap in Hp as (item & -> & Hitem). by exists item.
  - left. apply elem_of_dom in Hin as [content Hin]. apply elem_of_dom. exists content.
    rewrite write_all_untouched in Hin; [done|].
    intros item Hitem ->. apply Hp, list_elem_of_fmap. by exists item.
Qed.

Lemma dir_at_mkdir (disk : filesystem) (folder path : string)
    (fl : gmap string (list (list string))) :
  dir_at disk path = true ->
  dir_at {| dirs := {[folder]} ∪ dirs disk; files := fl |} path = true.
Proof.
  unfold dir_at. intros [H|H]%orb_true_iff; apply orb_true_iff; [by left|right].
  apply bool_decide_eq_true in H. apply bool_decide_eq_true. simpl.
  apply elem_of_union. by right.
Qed.

(** The loop of the export, in a folder that exists. *)
Lemma export_loop_run (folder : string) (items : list (string * nat)) (st : pystate) :
  relpath folder = true -> folder ∈ dirs (fs st) ->
  (forall item, item ∈ items ->
     PyStr.char_in "/" item.1 = false /\ PyStr.char_in NUL item.1 = false
     /\ is_Some (heap st !! item.2) /\ csv_path folder item.1 ∉ dirs (fs st)) ->
  for_in items (export_to_csv_item folder) tt st
  = Ret (tt, with_fs st {| dirs := dirs (fs st);
                           files := write_all folder (heap st) items (files (fs st)) |}).
Proof.
  intros Hrel. revert st.
  induction items as [|[identifier r] items IH]; intros st Hfolder H.
  - simpl. unfold ret, with_fs, write_all. simpl. by destruct st as [? ? ? []].
  - destruct (H (identifier, r) (list_elem_of_here _ _)) as (Hslash & Hnul & [T HT] & Hdir).
    simpl in Hslash, Hnul, HT, Hdir.
    cbn [for_in]. unfold bind at 1. unfold export_to_csv_item at 1.
    unfold to_csv, bind, get_frame. rewrite HT.
    fold (csv_path folder identifier). cbn zeta.
    rewrite csv_path_parent by done.
    unfold dir_at. rewrite (bool_decide_eq_true_2 _ Hfolder), orb_true_r. cbn [negb].
    rewrite (relpath_NUL _ (csv_path_relpath _ _ Hrel Hslash Hnul)).
    destruct (String.eqb_spec (csv_path folder identifier) "") as [E|_].
    { by apply (relpath_nonempty _ (csv_path_relpath _ _ Hrel Hslash Hnul)) in E. }
    rewrite bool_decide_eq_false_2 by done.
    rewrite IH.
    + unfold with_fs, write_all. simpl. by rewrite HT.
    + done.
    + intros item Hitem. simpl. apply H. by right.
Qed.

(** The state after the export. *)
Lemma export_to_csv_run (folder : string) (st : pystate) :
  collection_ok st ->
  (forall identifier, identifier ∈ dom (sitemaps_frames st) ->
     PyStr.char_in NUL identifier = false) ->
  relpath folder = true ->
  folder ∈ dirs (fs st)
  \/ ((folder ∉ dom (files (fs st))) /\ dir_at (fs st) (parent_dir folder) = true) ->
  (forall identifier, identifier ∈ dom (sitemaps_frames st) ->
     csv_path folder identifier ∉ dirs (fs st)) ->
  export_to_csv folder st
  = Ret (tt, with_fs st
               {| dirs := {[folder]} ∪ dirs (fs st);
                  files := write_all folder (heap st)
                             (map_to_list (sitemaps_frames st)) (files (fs st)) |}).
Proof.
  intros Hok Hnul Hrel Hfolder Hdirs.
  set (st1 := with_fs st {| dirs := {[folder]} ∪ dirs (fs st); files := files (fs st) |}).
  assert (Hloop : for_in (map_to_list (sitemaps_frames st)) (export_to_csv_item folder) tt st1
            = Ret (tt, with_fs st
                         {| dirs := {[folder]} ∪ dirs (fs st);
                            files := write_all folder (heap st)
                                       (map_to_list (sitemaps_frames st))
                                       (files (fs st)) |})).
  { rewrite export_loop_run; [done|done|simpl; apply elem_of_union; left; by apply elem_of_singleton|].
    intros [identifier r] Hin. apply elem_of_map_to_list in Hin. simpl in *.
    destruct (Hok _ _ Hin) as [Hslash [links Hlinks]].
    assert (Hid : identifier ∈ dom (sitemaps_frames st)) by (apply elem_of_dom; by eexists).
    split; [done|]. split; [by apply Hnul|]. split; [by eexists|].
    intros [E%elem_of_singleton|Hd]%elem_of_union.
    + by apply (csv_path_ne_folder folder identifier).
    + by apply (Hdirs identifier). }
  unfold export_to_csv, bind, os_path_isdir. case_bool_decide as Hin; simpl.
  - unfold ret. replace st with st1 at 1 2; [exact Hloop|].
    subst st1. unfold with_fs. destruct st as [h m lg [ds fl]]. simpl in *.
    do 2 f_equal. apply set_eq. intros x.
    rewrite elem_of_union, elem_of_singleton.
    split; [by intros [->|?]|by right].
  - destruct Hfolder as [Hfolder|[Hfile Hparent]]; [done|].
    unfold os_mkdir. cbn zeta.
    rewrite (relpath_NUL _ Hrel).
    destruct (String.eqb_spec folder "") as [E|_]; [by apply relpath_nonempty in E|].
    rewrite Hparent. cbn [negb].
    rewrite !bool_decide_eq_false_2 by done. exact Hloop.
Qed.

(** The export leaves the file system a tree. *)
Lemma export_disk_ok (folder : string) (st : pystate) :
  collection_ok st ->
  (forall identifier, identifier ∈ dom (sitemaps_frames st) ->
     PyStr.char_in NUL identifier = false) ->
  disk_ok (fs st) ->
  relpath folder = true ->
  folder ∈ dirs (fs st)
  \/ ((folder ∉ dom (files (fs st))) /\ dir_at (fs st) (parent_dir folder) = true) ->
  (forall identifier, identifier ∈ dom (sitemaps_frames st) ->
     csv_path folder identifier ∉ dirs (fs st)) ->
  disk_ok {| dirs := {[folder]} ∪ dirs (fs st);
             files := write_all folder (heap st)
                        (map_to_list (sitemaps_frames st)) (files (fs st)) |}.
Proof.
  intros Hok Hnul [Hd Hf] Hrel Hfolder Hdirs. split.
  - intros path [->%elem_of_singleton|Hpath]%elem_of_union.
    + split; [done|]. apply dir_at_mkdir.
      destruct Hfolder as [Hfolder|[_ Hparent]]; [|done]. by apply Hd.
    + destruct (Hd path Hpath) as [H1 H2]. split; [done|]. by apply dir_at_mkdir.
  - intros path Hpath. simpl in Hpath.
    apply write_all_dom in Hpath as [Hpath|([identifier r] & Hitem & ->)].
    + destruct (Hf path Hpath) as (H1 & H2 & H3).
      split; [done|]. split; [|by apply dir_at_mkdir]. simpl.
      intros [->%elem_of_singleton|Hin]%elem_of_union; [|done].
      destruct Hfolder as [Hfolder|[Hfile _]]; done.
    + apply elem_of_map_to_list in Hitem. simpl.
      destruct (Hok _ _ Hitem) as [Hslash _].
      assert (Hid : identifier ∈ dom (sitemaps_frames st)) by (apply elem_of_dom; by eexists).
      split; [by apply csv_path_relpath; [| |apply Hnul]|]. split.
      * intros [E%elem_of_singleton|Hin]%elem_of_union.
        -- by apply (csv_path_ne_folder folder identifier).
        -- by apply (Hdirs identifier).
      * rewrite csv_path_parent by done. unfold dir_at.
        apply orb_true_iff. right. apply bool_decide_eq_true. simpl.
        apply elem_of_union. left. by apply elem_of_singleton.
Qed.

(** C8. The export writes one CSV file for every entry of the
    collection, in a file system that is a tree, for a folder that is
    a path of the tree and is a directory already or can be created
    (the name is free and the directory that is to hold it exists), and
    for identifiers that a file name can hold.  The directory [folder]
    exists afterwards.  The file of an entry is [identifier.csv] in
    [folder]; its records are the header [Links, subdir1, ..., subdirM],
    [M] being the width of that table, then one record per URL, with
    the URL first (there is no column of row labels), its segments, and
    an empty field for every null.  Different entries are written to
    different files, no other file changes, the frames and the
    collection are left as they were, and the file system is still a
    tree. *)
Theorem export_writes_one_csv_per_table (folder : string) (st : pystate) :
  collection_ok st ->
  (forall identifier, identifier ∈ dom (sitemaps_frames st) ->
     PyStr.char_in NUL identifier = false) ->
  disk_ok (fs st) ->
  relpath folder = true ->
  folder ∈ dirs (fs st)
  \/ ((folder ∉ dom (files (fs st))) /\ dir_at (fs st) (parent_dir folder) = true) ->
  (forall identifier, identifier ∈ dom (sitemaps_frames st) ->
     csv_path folder identifier ∉ dirs (fs st)) ->
  exists st',
    export_to_csv folder st = Ret (tt, st')
    /\ heap st' = heap st /\ sitemaps_frames st' = sitemaps_frames st
    /\ dirs (fs st') = {[folder]} ∪ dirs (fs st)
    /\ (forall identifier r links,
          sitemaps_frames st !! identifier = Some r ->
          heap st !! r = Some (decomposed url_prefix links) ->
          csv_path folder identifier = dir_prefix folder +:+ identifier +:+ ".csv"
          /\ files (fs st') !! csv_path folder identifier = Some (csv_of_links links))
    /\ (forall id1 id2,
          id1 ∈ dom (sitemaps_frames st) -> id2 ∈ dom (sitemaps_frames st) ->
          csv_path folder id1 = csv_path folder id2 -> id1 = id2)
    /\ (forall path,
          (forall identifier, identifier ∈ dom (sitemaps_frames st) ->
             path <> csv_path folder identifier) ->
          files (fs st') !! path = files (fs st) !! path)
    /\ disk_ok (fs st').
Proof.
  intros Hok Hnul Hdisk Hrel Hfolder Hdirs.
  set (items := map_to_list (sitemaps_frames st)).
  assert (Hitems : forall item, item ∈ items ->
            sitemaps_frames st !! item.1 = Some item.2).
  { intros [identifier r] Hin. by apply elem_of_map_to_list in Hin. }
  eexists. split; [by apply export_to_csv_run|].
  split; [done|]. split; [done|]. split; [done|].
  split; [|split; [|split]].
  - intros identifier r links Hm Hh.
    destruct (Hok _ _ Hm) as [Hslash _].
    split; [by apply csv_path_spec|]. simpl.
    rewrite <- to_csv_records_decomposed.
    apply (write_all_written folder (heap st) items _ identifier r); try done.
    + apply NoDup_fst_map_to_list.
    + intros item Hin. apply Hitems in Hin. by destruct (Hok _ _ Hin).
    + by apply elem_of_map_to_list.
  - intros id1 id2 [r1 H1]%elem_of_dom [r2 H2]%elem_of_dom.
    apply csv_path_inj; [by destruct (Hok _ _ H1)|by destruct (Hok _ _ H2)].
  - intros path Hpath. simpl. apply write_all_untouched.
    intros item Hin. apply Hpath, elem_of_dom.
    apply Hitems in Hin. by eexists.
  - simpl. by apply export_disk_ok.
Qed.

(** ** The collection a run builds *)

Lemma collection_ok_init (disk : filesystem) : collection_ok (init_state disk).
Proof. intros identifier r H. simpl in H. by rewrite lookup_empty in H. Qed.

Lemma collection_ok_stored (u : string) (links : list string) (st : pystate) :
  collection_ok st ->
  collection_ok (stored (identifier_of u) (decomposed url_prefix links) st).
Proof.
  intros Hok identifier r. unfold stored. simpl.
  destruct (decide (identifier = identifier_of u)) as [->|Hne].
  - rewrite lookup_insert_eq. intros [= <-].
    split; [apply identifier_of_no_slash|].
    exists links. by apply list_lookup_middle.
  - rewrite lookup_insert_ne by done. intros H.
    destruct (Hok _ _ H) as [Hslash [links' Hlinks']].
    split; [done|]. exists links'. by apply lookup_app_l_Some.
Qed.

Section Collection.

Variable web : string -> option string.
Variable find_all_loc : string -> list string.

Lemma visits_collection_ok :
  (forall u st st', visits web find_all_loc u st st' ->
     collection_ok st -> collection_ok st')
  /\ (forall u ls st st', entries web find_all_loc u ls st st' ->
        collection_ok st -> collection_ok st').
Proof.
  apply visits_entries_ind.
  - intros u st st1 _ IH Hok. apply collection_ok_stored. by apply IH.
  - done.
  - intros u l ls st st1 st2 _ _ IH1 _ IH2 Hok. by apply IH2, IH1.
  - intros u l ls st st2 _ _ IH Hok. by apply IH.
Qed.

Lemma process_sitemap_collection_ok (fuel : nat) (u : string) (st st' : pystate) :
  process_sitemap web find_all_loc fuel u st = Ret (tt, st') ->
  collection_ok st -> collection_ok st'.
Proof.
  intros H. eapply (proj1 visits_collection_ok).
  by eapply process_sitemap_visits.
Qed.

Lemma collect_sitemaps_collection_ok (fuel : nat) (base_url : string)
    (st st' : pystate) :
  collect_sitemaps web find_all_loc fuel base_url st = Ret (tt, st') ->
  collection_ok st -> collection_ok st'.
Proof.
  unfold collect_sitemaps, bind. rewrite retrieve_web_data_run.
  generalize (PyStr.split newline (default "" (web (base_url +:+ "/robots.txt")))).
  intros lines H Hok.
  assert (Hok1 : collection_ok (logged (EvGet (base_url +:+ "/robots.txt")) st)) by done.
  revert H Hok1. generalize (logged (EvGet (base_url +:+ "/robots.txt")) st).
  clear Hok st. induction lines as [|line lines IH]; intros st H Hok.
  - by injection H as <-.
  - cbn [for_in] in H. unfold bind in H. unfold collect_sitemaps_line at 1 in H.
    destruct (PyStr.startswith "Sitemap:" line).
    + unfold bind, or_raise in H.
      destruct (PyStr.split ": " line !! 1) as [field|]; [|done].
      unfold ret in H.
      destruct (process_sitemap _ _ _ _ _) as [[[] st1]| |] eqn:E; try discriminate H.
      eapply IH; [exact H|]. by eapply process_sitemap_collection_ok.
    + unfold ret in H. by eapply IH.
Qed.

End Collection.

(** ** Root discovery *)

(** C7 (the code at the failing input). A robots.txt line that starts
    with [Sitemap:] and has no colon followed by a space makes
    [collect_sitemaps] raise IndexError: [line.split(": ")] has one
    piece only and the code takes the piece of index 1. *)
Theorem collect_sitemaps_raises_without_space (find_all_loc : string -> list string)
    (fuel : nat) (st : pystate) :
  collect_sitemaps nospace_web find_all_loc fuel example_base st = Raise IndexError.
Proof.
  unfold collect_sitemaps, bind. rewrite retrieve_web_data_run. reflexivity.
Qed.

Lemma collect_sitemaps_no_raise (web : string -> option string)
    (find_all_loc : string -> list string) (fuel : nat) (base_url : string)
    (st : pystate) (e : exn) :
  (forall line, line ∈ PyStr.split newline (default "" (web (base_url +:+ "/robots.txt"))) ->
     PyStr.startswith "Sitemap:" line = true ->
     is_Some (PyStr.split ": " line !! 1)) ->
  collect_sitemaps web find_all_loc fuel base_url st <> Raise e.
Proof.
  unfold collect_sitemaps, bind. rewrite retrieve_web_data_run.
  generalize (PyStr.split newline (default "" (web (base_url +:+ "/robots.txt")))).
  generalize (logged (EvGet (base_url +:+ "/robots.txt")) st). clear st.
  intros st lines. revert st. induction lines as [|line lines IH]; intros st Hok; [done|].
  cbn [for_in]. unfold bind. unfold collect_sitemaps_line at 1.
  assert (Hok' : forall line', line' ∈ lines ->
            PyStr.startswith "Sitemap:" line' = true ->
            is_Some (PyStr.split ": " line' !! 1))
    by (intros line' Hin; apply Hok; by right).
  destruct (PyStr.startswith "Sitemap:" line) eqn:Estart.
  - destruct (Hok line (list_elem_of_here _ _) Estart) as [field ->].
    unfold bind, or_raise, ret.
    destruct (process_sitemap _ _ _ _ _) as [[[] st1]| |] eqn:E; [by apply IH| |done].
    by apply process_sitemap_no_raise in E.
  - unfold ret. by apply IH.
Qed.

(** * Concrete instances *)

Lemma split_url_nonempty_witness :
  1 <= length (split_url url_prefix "https://example.com/")
  /\ exists T : DataFrame,
       (dataframe <- new_frame (pd_DataFrame ["https://example.com/"]) ;;
        process_links dataframe) (init_state empty_disk)
         = Ret (0, with_heap (init_state empty_disk) [T])
       /\ length (data T) = 1
       /\ "subdir1" ∈ columns T.
Proof.
  split.
  - apply (proj1 split_url_nonempty).
  - apply (proj2 split_url_nonempty (init_state empty_disk) ["https://example.com/"]).
    discriminate.
Defined.




Lemma example_state_index_run :
  process_sitemap example_web loc_texts 2 example_index (init_state empty_disk)
  = Ret (tt, example_state_index).
Proof. vm_compute. reflexivity. Qed.

Lemma example_state_sitemap_run :
  process_sitemap example_web loc_texts 1 example_sitemap (init_state empty_disk)
  = Ret (tt, example_state_sitemap).
Proof. vm_compute. reflexivity. Qed.

Lemma example_state_gone_run :
  process_sitemap example_web loc_texts 1 example_gone example_state_sitemap
  = Ret (tt, example_state_gone).
Proof. vm_compute. reflexivity. Qed.

Lemma example_state_run :
  WebSitemapScraper example_web loc_texts 2 example_base empty_disk
  = Ret (tt, example_state).
Proof. vm_compute. reflexivity. Qed.

Lemma process_sitemap_records_then_visits_witness :
  process_sitemap example_web loc_texts 2 example_index (init_state empty_disk)
    = Ret (tt, example_state_index)
  /\ visit_recorded example_web loc_texts example_index
       (init_state empty_disk) example_state_index.
Proof.
  split; [exact example_state_index_run|].
  exact (proj1 (process_sitemap_records_then_visits example_web loc_texts example_index)
           2 (init_state empty_disk) example_state_index example_state_index_run).
Defined.

Lemma fetch_failure_is_silent_witness :
  example_web example_gone = None
  /\ loc_texts "" = []
  /\ forall st,
       process_sitemap example_web loc_texts 1 example_gone st
         = Ret (tt, stored (identifier_of example_gone)
                      {| columns := ["Links"]; data := [] |}
                      (logged (EvGet example_gone) st))
       /\ table_of (stored (identifier_of example_gone)
                      {| columns := ["Links"]; data := [] |}
                      (logged (EvGet example_gone) st)) (identifier_of example_gone)
          = Some {| columns := ["Links"]; data := [] |}.
Proof.
  split; [reflexivity|]. split; [reflexivity|].
  exact (proj1 (fetch_failure_is_silent example_web loc_texts 0 example_gone
                  eq_refl eq_refl)).
Defined.

Lemma store_keyed_by_last_segment_witness :
  example_sitemap <> example_gone
  /\ identifier_of example_sitemap = identifier_of example_gone
  /\ table_of example_state_sitemap (identifier_of example_sitemap)
     = Some (decomposed url_prefix (locs_of example_web loc_texts example_sitemap))
  /\ forall T, table_of example_state_gone (identifier_of example_sitemap) = Some T <->
               T = decomposed url_prefix (locs_of example_web loc_texts example_gone).
Proof.
  split; [discriminate|]. split; [reflexivity|].
  apply (proj2 (proj2 (store_keyed_by_last_segment example_web loc_texts)) 1 1
           example_sitemap example_gone (init_state empty_disk)
           example_state_sitemap example_state_gone).
  - discriminate.
  - reflexivity.
  - exact example_state_sitemap_run.
  - exact example_state_gone_run.
Defined.

(** The references of the example site: the index lists the nested
    sitemap, and nothing else lists a sitemap. *)
Lemma lists_example (v l : string) :
  lists_sitemap example_web loc_texts v l ->
  v = example_index /\ l = example_sitemap.
Proof.
  intros [Hin Hxml]. unfold locs_of, example_web in Hin.
  destruct (String.eqb v "https://www.datacamp.com/robots.txt").
  { vm_compute in Hin. by apply elem_of_nil in Hin. }
  destruct (String.eqb v example_index) eqn:E.
  { apply String.eqb_eq in E. split; [done|].
    apply elem_of_cons in Hin as [->|Hin]; [reflexivity|].
    apply list_elem_of_singleton in Hin as ->. discriminate Hxml. }
  destruct (String.eqb v example_sitemap).
  { apply elem_of_cons in Hin as [->|Hin]; [discriminate Hxml|].
    apply list_elem_of_singleton in Hin as ->. discriminate Hxml. }
  vm_compute in Hin. by apply elem_of_nil in Hin.
Qed.

Lemma example_finite_acyclic : finite_acyclic example_web loc_texts example_index.
Proof.
  exists [example_index; example_sitemap]. split; [by left|]. split.
  - intros v l _ [_ ->]%lists_example. right. by left.
  - intros v _ H. inversion H as [x y Hxy|x y z Hxy Hyz]; subst.
    + apply lists_example in Hxy as [-> Hxy]. discriminate Hxy.
    + apply lists_example in Hxy as [-> ->].
      inversion Hyz as [x y Hxy|x y z Hxy _]; subst;
        apply lists_example in Hxy as [Hxy _]; discriminate Hxy.
Qed.

Lemma process_sitemap_termination_witness :
  (lists_sitemap cycle_web loc_texts cycle_a cycle_b
   /\ lists_sitemap cycle_web loc_texts cycle_b cycle_a
   /\ forall fuel st, process_sitemap cycle_web loc_texts fuel cycle_a st = OutOfFuel)
  /\ (finite_acyclic example_web loc_texts example_index
      /\ exists fuel, forall st, exists st',
           process_sitemap example_web loc_texts fuel example_index st = Ret (tt, st')).
Proof.
  assert (Hab : lists_sitemap cycle_web loc_texts cycle_a cycle_b)
    by (split; [by left|reflexivity]).
  assert (Hba : lists_sitemap cycle_web loc_texts cycle_b cycle_a)
    by (split; [by left|reflexivity]).
  split.
  - split; [exact Hab|]. split; [exact Hba|].
    exact (proj1 (process_sitemap_termination cycle_web loc_texts)
             cycle_a cycle_b Hab Hba).
  - split; [exact example_finite_acyclic|].
    exact (proj2 (process_sitemap_termination example_web loc_texts)
             example_index example_finite_acyclic).
Defined.

Lemma example_state_collect :
  collect_sitemaps example_web loc_texts 2 example_base (init_state empty_disk)
  = Ret (tt, example_state).
Proof. vm_compute. reflexivity. Qed.

Lemma example_state_ok : collection_ok example_state.
Proof.
  apply (collect_sitemaps_collection_ok example_web loc_texts 2 example_base
           (init_state empty_disk) example_state example_state_collect).
  apply collection_ok_init.
Qed.

Lemma example_state_fs : fs example_state = empty_disk.
Proof. vm_compute. reflexivity. Qed.

Lemma disk_ok_empty : disk_ok empty_disk.
Proof.
  split; intros path Hpath; simpl in Hpath.
  - by apply not_elem_of_empty in Hpath.
  - rewrite dom_empty_L in Hpath. by apply not_elem_of_empty in Hpath.
Qed.

Lemma example_state_disk_ok : disk_ok (fs example_state).
Proof. rewrite example_state_fs. apply disk_ok_empty. Qed.

Lemma example_state_collection :
  sitemaps_frames example_state
  = <["sitemap_index.xml" := 1]> (<["sitemap1.xml" := 2]> ∅).
Proof. vm_compute. reflexivity. Qed.

Lemma example_state_names (identifier : string) :
  identifier ∈ dom (sitemaps_frames example_state) ->
  PyStr.char_in NUL identifier = false.
Proof.
  rewrite example_state_collection. intros [r Hr]%elem_of_dom.
  apply lookup_insert_Some in Hr as [[<- _]|[_ Hr]]; [reflexivity|].
  apply lookup_insert_Some in Hr as [[<- _]|[_ Hr]]; [reflexivity|].
  by rewrite lookup_empty in Hr.
Qed.

Lemma example_state_free (folder : string) :
  (folder ∉ dom (files (fs example_state)))
  /\ forall identifier, identifier ∈ dom (sitemaps_frames example_state) ->
       csv_path folder identifier ∉ dirs (fs example_state).
Proof.
  rewrite example_state_fs. split.
  - cbn [files empty_disk]. rewrite dom_empty_L. apply not_elem_of_empty.
  - intros identifier _. apply not_elem_of_empty.
Qed.

Lemma relpath_sitemaps : relpath "sitemaps" = true.
Proof. vm_compute. reflexivity. Qed.

Lemma parent_dir_sitemaps (disk : filesystem) :
  dir_at disk (parent_dir "sitemaps") = true.
Proof. reflexivity. Qed.

Lemma export_writes_one_csv_per_table_witness :
  collection_ok example_state
  /\ disk_ok (fs example_state)
  /\ relpath "sitemaps" = true
  /\ ("sitemaps" ∉ dom (files (fs example_state)))
  /\ dir_at (fs example_state) (parent_dir "sitemaps") = true
  /\ exists st',
       export_to_csv "sitemaps" example_state = Ret (tt, st')
       /\ dirs (fs st') = {["sitemaps"]} ∪ dirs (fs example_state)
       /\ files (fs st') !! "sitemaps/sitemap_index.xml.csv"
          = Some [["Links"; "subdir1"];
                  ["https://www.datacamp.com/sitemap1.xml"; "sitemap1.xml"];
                  ["https://www.datacamp.com/page-a"; "page-a"]]
       /\ disk_ok (fs st').
Proof.
  destruct (example_state_free "sitemaps") as [H2 H3].
  pose proof (parent_dir_sitemaps (fs example_state)) as H4.
  split; [exact example_state_ok|]. split; [exact example_state_disk_ok|].
  split; [exact relpath_sitemaps|]. split; [exact H2|]. split; [exact H4|].
  destruct (export_writes_one_csv_per_table "sitemaps" example_state
              example_state_ok example_state_names example_state_disk_ok
              relpath_sitemaps (or_intror (conj H2 H4)) H3)
    as (st' & Hrun & _ & _ & Hdirs & Hfiles & _ & _ & Hdisk).
  exists st'. split; [exact Hrun|]. split; [exact Hdirs|]. split; [|exact Hdisk].
  assert (Hm : sitemaps_frames example_state !! "sitemap_index.xml" = Some 1)
    by (vm_compute; reflexivity).
  assert (Hh : heap example_state !! 1
               = Some (decomposed url_prefix
                         ["https://www.datacamp.com/sitemap1.xml";
                          "https://www.datacamp.com/page-a"]))
    by (vm_compute; reflexivity).
  exact (proj2 (Hfiles _ _ _ Hm Hh)).
Defined.

(** * Further properties of the walker *)

Section WalkerMore.

Variable web : string -> option string.
Variable find_all_loc : string -> list string.

Local Abbreviation run_sitemap := (process_sitemap web find_all_loc).
Local Abbreviation locs := (locs_of web find_all_loc).

(** X1. [process_sitemap] raises no exception, whatever the site, the
    depth allowed and the state: it returns or it exhausts the depth.
    The index [-1] of a split is always there, and [process_links]
    finds a string in every [Links] cell of the frame the method
    builds. *)
Theorem process_sitemap_never_raises (fuel : nat) (u : string) (st : pystate) :
  (exists st', run_sitemap fuel u st = Ret (tt, st'))
  \/ run_sitemap fuel u st = OutOfFuel.
Proof.
  destruct (run_sitemap fuel u st) as [[[] st']| |] eqn:E.
  - left. by exists st'.
  - by apply process_sitemap_no_raise in E.
  - by right.
Qed.

(** The loop over the lines of robots.txt, by cases. *)
Lemma collect_sitemaps_run (fuel : nat) (base_url : string) (st : pystate) :
  collect_sitemaps web find_all_loc fuel base_url st
  = for_in (PyStr.split newline (default "" (web (robots_url base_url))))
      (collect_sitemaps_line web find_all_loc fuel) tt
      (logged (EvGet (robots_url base_url)) st).
Proof. unfold collect_sitemaps, bind. by rewrite retrieve_web_data_run. Qed.

Lemma collect_sitemaps_lines_raise (fuel : nat) (lines : list string)
    (st : pystate) (e : exn) :
  for_in lines (collect_sitemaps_line web find_all_loc fuel) tt st = Raise e ->
  e = IndexError
  /\ exists line, line ∈ lines
                  /\ PyStr.startswith "Sitemap:" line = true
                  /\ PyStr.split ": " line !! 1 = None.
Proof.
  revert st. induction lines as [|line lines IH]; intros st H; [done|].
  cbn [for_in] in H. unfold bind in H. unfold collect_sitemaps_line at 1 in H.
  destruct (PyStr.startswith "Sitemap:" line) eqn:Estart.
  - unfold bind, or_raise in H.
    destruct (PyStr.split ": " line !! 1) as [field|] eqn:Efield.
    + unfold ret in H.
      destruct (process_sitemap _ _ _ _ _) as [[[] st1]| |] eqn:E.
      * destruct (IH _ H) as [-> (line' & Hin & Hline')].
        split; [done|]. exists line'. split; [by right|done].
      * by apply process_sitemap_no_raise in E.
      * done.
    + injection H as <-. split; [done|]. exists line. split; [by left|done].
  - unfold ret in H. destruct (IH _ H) as [-> (line' & Hin & Hline')].
    split; [done|]. exists line'. split; [by right|done].
Qed.

(** X2. The only exception [collect_sitemaps] can raise is IndexError,
    and it raises it only when robots.txt has a line that starts with
    [Sitemap:] and has no colon followed by a space. *)
Theorem collect_sitemaps_raises_only_index_error (fuel : nat) (base_url : string)
    (st : pystate) (e : exn) :
  collect_sitemaps web find_all_loc fuel base_url st = Raise e ->
  e = IndexError
  /\ exists line,
       line ∈ PyStr.split newline (default "" (web (robots_url base_url)))
       /\ PyStr.startswith "Sitemap:" line = true
       /\ PyStr.split ": " line !! 1 = None.
Proof. rewrite collect_sitemaps_run. apply collect_sitemaps_lines_raise. Qed.

(** X3. When robots.txt cannot be fetched, or has no line that starts
    with [Sitemap:], the constructor's [collect_sitemaps] returns after
    that one request: no sitemap is visited (no depth of recursion is
    needed) and the frames, the collection and the files are as
    before. *)
Theorem collect_sitemaps_without_roots (fuel : nat) (base_url : string) (st : pystate) :
  (web (robots_url base_url) = None
   \/ forall line, line ∈ PyStr.split newline (default "" (web (robots_url base_url))) ->
                   PyStr.startswith "Sitemap:" line = false) ->
  collect_sitemaps web find_all_loc fuel base_url st
  = Ret (tt, logged (EvGet (robots_url base_url)) st).
Proof.
  intros H. rewrite collect_sitemaps_run.
  assert (Hlines : forall line,
            line ∈ PyStr.split newline (default "" (web (robots_url base_url))) ->
            PyStr.startswith "Sitemap:" line = false).
  { destruct H as [-> | H]; [|done].
    intros line Hin. simpl in Hin. apply list_elem_of_singleton in Hin. by subst. }
  revert Hlines. generalize (PyStr.split newline (default "" (web (robots_url base_url)))).
  generalize (logged (EvGet (robots_url base_url)) st).
  intros st1 lines. induction lines as [|line lines IH]; intros Hlines; [done|].
  cbn [for_in]. unfold bind, collect_sitemaps_line.
  rewrite (Hlines line) by (by left). unfold ret. fold (collect_sitemaps_line web find_all_loc fuel).
  apply IH. intros line' Hin. apply Hlines. by right.
Qed.

(** *** What the walker keeps *)

Lemma walker_keeps_refl (st : pystate) : walker_keeps st st.
Proof. by split. Qed.

Lemma walker_keeps_trans (st1 st2 st3 : pystate) :
  walker_keeps st1 st2 -> walker_keeps st2 st3 -> walker_keeps st1 st3.
Proof.
  intros (Hfs1 & Hh1 & Hd1) (Hfs2 & Hh2 & Hd2). split; [congruence|].
  split; [intros r T H; by apply Hh2, Hh1|]. by transitivity (dom (sitemaps_frames st2)).
Qed.

Lemma walker_keeps_logged (e : event) (st : pystate) : walker_keeps st (logged e st).
Proof. by split. Qed.

Lemma walker_keeps_stored (identifier : string) (T : DataFrame) (st : pystate) :
  walker_keeps st (stored identifier T st).
Proof.
  split; [done|]. split.
  - intros r T' H. simpl. by apply lookup_app_l_Some.
  - simpl. apply dom_insert_subseteq.
Qed.

Lemma visits_keep :
  (forall u st st', visits web find_all_loc u st st' -> walker_keeps st st')
  /\ (forall u ls st st', entries web find_all_loc u ls st st' -> walker_keeps st st').
Proof.
  apply visits_entries_ind.
  - intros u st st1 _ IH.
    eapply walker_keeps_trans; [apply (walker_keeps_logged (EvGet u))|].
    eapply walker_keeps_trans; [exact IH|apply walker_keeps_stored].
  - intros u st. apply walker_keeps_refl.
  - intros u l ls st st1 st2 _ _ IH1 _ IH2.
    eapply walker_keeps_trans; [apply (walker_keeps_logged (EvAppend u l))|].
    by eapply walker_keeps_trans.
  - intros u l ls st st2 _ _ IH.
    eapply walker_keeps_trans; [apply (walker_keeps_logged (EvAppend u l))|done].
Qed.

Lemma collect_sitemaps_lines_keep (fuel : nat) (lines : list string) (st st' : pystate) :
  for_in lines (collect_sitemaps_line web find_all_loc fuel) tt st = Ret (tt, st') ->
  walker_keeps st st'.
Proof.
  revert st. induction lines as [|line lines IH]; intros st H.
  - injection H as <-. apply walker_keeps_refl.
  - cbn [for_in] in H. unfold bind in H. unfold collect_sitemaps_line at 1 in H.
    destruct (PyStr.startswith "Sitemap:" line).
    + unfold bind, or_raise in H.
      destruct (PyStr.split ": " line !! 1) as [field|]; [|done].
      unfold ret in H.
      destruct (process_sitemap _ _ _ _ _) as [[[] st1]| |] eqn:E; try discriminate H.
      eapply walker_keeps_trans; [|by apply IH].
      by apply (proj1 visits_keep _ _ _ (process_sitemap_visits _ _ _ _ _ _ E)).
    + unfold ret in H. by apply IH.
Qed.

(** X4. Tables are write-once for the walker: a returning
    [process_sitemap], and a returning [collect_sitemaps], leave the
    file system untouched, leave every frame object that existed with
    the value it had, and remove no identifier from the collection (an
    identifier can only be pointed at a newer frame). *)
Theorem walker_keeps_frames_and_files :
  (forall fuel u st st',
     run_sitemap fuel u st = Ret (tt, st') -> walker_keeps st st')
  /\ (forall fuel base_url st st',
        collect_sitemaps web find_all_loc fuel base_url st = Ret (tt, st') ->
        walker_keeps st st').
Proof.
  split.
  - intros fuel u st st' H.
    by apply (proj1 visits_keep _ _ _ (process_sitemap_visits _ _ _ _ _ _ H)).
  - intros fuel base_url st st' H. rewrite collect_sitemaps_run in H.
    eapply walker_keeps_trans; [apply walker_keeps_logged|].
    by eapply collect_sitemaps_lines_keep.
Qed.

(** *** A sitemap without nested sitemaps *)

Lemma loop_leaves (rec : string -> Py unit) (u : string) (ls : list string) :
  (forall l, l ∈ ls -> PyStr.endswith ".xml" l = false) ->
  forall acc st,
  for_in ls (process_sitemap_entry rec u) acc st
  = Ret (acc ++ ls, with_log st (log st ++ map (EvAppend u) ls)).
Proof.
  induction ls as [|l ls IH]; intros Hls acc st.
  - simpl. unfold ret, with_log. rewrite !app_nil_r. by destruct st.
  - cbn [for_in]. unfold bind. rewrite process_sitemap_entry_run.
    rewrite (Hls l) by (by left).
    rewrite IH by (intros l' Hl'; apply Hls; by right).
    unfold with_log, logged. simpl. by rewrite <- !app_assoc.
Qed.

(** X5. A sitemap none of whose entries ends in [.xml] is handled
    with one request and without recursion (depth 1 is enough): the
    log grows by the request and one append per entry, in document
    order, and the table of the entries is stored. *)
Theorem leaf_sitemap_single_request (fuel : nat) (u : string) (st : pystate) :
  (forall l, l ∈ locs u -> PyStr.endswith ".xml" l = false) ->
  run_sitemap (S fuel) u st
  = Ret (tt, stored (identifier_of u) (decomposed url_prefix (locs u))
               (with_log st (log st ++ EvGet u :: map (EvAppend u) (locs u)))).
Proof.
  intros H. rewrite process_sitemap_S, (loop_leaves _ u (locs u) H).
  unfold with_log, logged. simpl. by rewrite <- app_assoc.
Qed.

(** *** No deduplication *)

Lemma requests_for_app (l : string) (t1 t2 : list event) :
  requests_for l (t1 ++ t2) = requests_for l t1 + requests_for l t2.
Proof. unfold requests_for. by rewrite filter_app, length_app. Qed.

Lemma visits_requests :
  (forall u st st', visits web find_all_loc u st st' ->
     exists tr, log st' = log st ++ tr
                /\ 1 <= requests_for u tr
                /\ forall l, PyStr.endswith ".xml" l = true ->
                      listings l (locs u) <= requests_for l tr)
  /\ (forall u ls st st', entries web find_all_loc u ls st st' ->
        exists tr, log st' = log st ++ tr
                   /\ forall l, PyStr.endswith ".xml" l = true ->
                         listings l ls <= requests_for l tr).
Proof.
  apply visits_entries_ind.
  - intros u st st1 _ (tr & Hlog & Hreq).
    exists (EvGet u :: tr). simpl in *. rewrite Hlog, <- app_assoc.
    split; [done|]. split.
    + unfold requests_for. rewrite filter_cons_True by done. simpl. lia.
    + intros l Hl. specialize (Hreq l Hl).
      unfold requests_for in *. rewrite filter_cons. case_decide; simpl; lia.
  - intros u st. exists []. rewrite app_nil_r. split; [done|].
    intros l _. unfold listings. simpl. lia.
  - intros u l ls st st1 st2 Hxml _ (tr1 & Hlog1 & Hone & _) _ (tr2 & Hlog2 & Hreq2).
    exists ((EvAppend u l :: tr1) ++ tr2). simpl in Hlog1.
    rewrite Hlog2, Hlog1, <- !app_assoc. split; [done|].
    intros l' Hl'. specialize (Hreq2 l' Hl').
    rewrite requests_for_app.
    assert (Hcons : requests_for l' (EvAppend u l :: tr1) = requests_for l' tr1)
      by (unfold requests_for; by rewrite filter_cons_False).
    rewrite Hcons.
    unfold listings in *. rewrite filter_cons. case_decide as Heq; simpl; [subst l'|]; lia.
  - intros u l ls st st2 Hxml _ (tr2 & Hlog2 & Hreq2).
    exists ([EvAppend u l] ++ tr2). simpl in Hlog2.
    rewrite Hlog2, <- !app_assoc. split; [done|].
    intros l' Hl'. specialize (Hreq2 l' Hl').
    rewrite requests_for_app.
    unfold listings in *. rewrite filter_cons. case_decide as Heq; simpl; [|lia].
    subst l'. congruence.
Qed.

(** X6. The walker does not deduplicate: in the log of a returning
    [process_sitemap(u)] there is a request for [u], and a nested
    sitemap is requested at least as many times as the document of [u]
    lists it. *)
Theorem process_sitemap_requests_every_listing (fuel : nat) (u : string)
    (st st' : pystate) :
  run_sitemap fuel u st = Ret (tt, st') ->
  exists tr, log st' = log st ++ tr
             /\ 1 <= requests_for u tr
             /\ forall l, PyStr.endswith ".xml" l = true ->
                   listings l (locs u) <= requests_for l tr.
Proof.
  intros H. apply process_sitemap_visits in H.
  by apply (proj1 visits_requests).
Qed.

End WalkerMore.

(** * Further properties of the decomposition *)

(** X7. The segments of a URL are its path again: for a URL that
    starts with the prefix, [split_url] returns strings only, none of
    them contains a slash, and joining them with slashes gives the rest
    of the URL after the prefix, stripped of its leading and trailing
    slashes (empty segments between doubled slashes are kept). *)
Theorem split_url_round_trip (p rest : string) :
  exists segments : list string,
    split_url p (p +:+ rest) = map Some segments
    /\ PyStr.join "/" segments = PyStr.strip "/" rest
    /\ Forall (fun segment => PyStr.char_in "/" segment = false) segments.
Proof.
  exists (PyStr.split "/" (PyStr.strip "/" rest)). split; [|split].
  - unfold split_url. by rewrite PyStrFacts.startswith_app, PyStrFacts.drop_app.
  - apply PyStrFacts.join_split_slash.
  - apply split_slash_pieces.
Qed.

Lemma str_contains_spec (sep s : string) :
  str_contains sep s = true <-> exists a b, s = a +:+ sep +:+ b.
Proof.
  split.
  - induction s as [|c s IH]; cbn [str_contains]; intros H.
    + rewrite orb_false_r in H. apply PyStrFacts.startswith_inv in H as [r ->].
      by exists "", r.
    + apply orb_true_iff in H as [H|H].
      * apply PyStrFacts.startswith_inv in H as [r ->]. by exists "", r.
      * destruct (IH H) as (a & b & ->). by exists (String c a), b.
  - intros (a & b & ->). induction a as [|c a IH].
    + rewrite PyStrFacts.app_nil_l.
      destruct (sep +:+ b) eqn:E; cbn [str_contains]; rewrite <- E;
        by rewrite PyStrFacts.startswith_app.
    + rewrite PyStrFacts.app_cons. cbn [str_contains]. rewrite IH.
      apply orb_true_r.
Qed.

(** A string without the separator is the only piece of its split. *)
Lemma split_colon_space_none (s : string) :
  str_contains ": " s = false -> PyStr.split ": " s = [s].
Proof.
  intros H. unfold PyStr.split.
  assert (Hgo : PyStr.split_from ": " 0 s = (s, [])).
  { induction s as [|c s IH]; [done|].
    cbn [str_contains] in H. apply orb_false_iff in H as [H1 H2].
    cbn [PyStr.split_from]. by rewrite H1, (IH H2). }
  by rewrite Hgo.
Qed.

Lemma split_sitemap_line (rest : string) :
  PyStr.split ": " ("Sitemap: " +:+ rest) = "Sitemap" :: PyStr.split ": " rest.
Proof.
  unfold PyStr.split.
  change ("Sitemap: " +:+ rest)
    with (String "S" (String "i" (String "t" (String "e" (String "m" (String "a"
           (String "p" (String ":" (String " " rest))))))))).
  cbn [PyStr.split_from PyStr.startswith String.length Nat.sub Ascii.eqb Bool.eqb].
  destruct rest as [|c rest]; [done|].
  by destruct (PyStr.split_from ": " 0 (String c rest)).
Qed.

Section RootLines.

Variable web : string -> option string.
Variable find_all_loc : string -> list string.

(** X8. A robots.txt line [Sitemap: url] makes the walker visit
    exactly [url], when [url] contains no colon followed by a space
    ([": " not in url]) and has no white space around it
    ([url.strip() == url]). *)
Theorem sitemap_line_round_trip (fuel : nat) (url : string) (st : pystate) :
  str_contains ": " url = false ->
  PyStr.strip PyStr.whitespace url = url ->
  collect_sitemaps_line web find_all_loc fuel ("Sitemap: " +:+ url) tt st
  = process_sitemap web find_all_loc fuel url st.
Proof.
  intros Hsep Hstrip. unfold collect_sitemaps_line.
  change (PyStr.startswith "Sitemap:" ("Sitemap: " +:+ url)) with true.
  rewrite split_sitemap_line, split_colon_space_none by done.
  change (["Sitemap"; url] !! 1) with (Some url).
  unfold bind, or_raise, ret. by rewrite Hstrip.
Qed.

End RootLines.

Lemma split_colon_space_first (a b : string) :
  str_contains ": " a = false ->
  PyStr.split ": " (a +:+ ": " +:+ b) = a :: PyStr.split ": " b.
Proof.
  intros H. unfold PyStr.split.
  assert (Hgo : PyStr.split_from ": " 0 (a +:+ ": " +:+ b)
                = (a, (PyStr.split_from ": " 0 b).1 :: (PyStr.split_from ": " 0 b).2)).
  { induction a as [|c a IH].
    - change ("" +:+ ": " +:+ b) with (String ":" (String " " b)).
      cbn [PyStr.split_from PyStr.startswith String.length Nat.sub Ascii.eqb Bool.eqb].
      destruct b as [|d b]; [done|].
      by destruct (PyStr.split_from ": " 0 (String d b)).
    - cbn [str_contains] in H. apply orb_false_iff in H as [H1 H2].
      rewrite PyStrFacts.app_cons. cbn [PyStr.split_from].
      assert (Hno : PyStr.startswith ": " (String c (a +:+ ": " +:+ b)) = false).
      { cbn [PyStr.startswith] in H1 |- *.
        destruct (Ascii.eqb ":" c); [|done].
        destruct a as [|d a]; [done|].
        rewrite PyStrFacts.app_cons. cbn [PyStr.startswith] in H1 |- *.
        by destruct (Ascii.eqb " " d). }
      by rewrite Hno, (IH H2). }
  rewrite Hgo. by destruct (PyStr.split_from ": " 0 b).
Qed.

Section RootLinesCut.

Variable web : string -> option string.
Variable find_all_loc : string -> list string.

(** X9. The walker takes what stands between the first and the second
    colon-space of a [Sitemap:] line: a URL that itself contains a
    colon followed by a space is cut there, and the walker visits the
    part before it. *)
Theorem sitemap_line_cut_at_colon_space (fuel : nat) (a b : string) (st : pystate) :
  str_contains ": " a = false ->
  collect_sitemaps_line web find_all_loc fuel ("Sitemap: " +:+ a +:+ ": " +:+ b) tt st
  = process_sitemap web find_all_loc fuel (PyStr.strip PyStr.whitespace a) st.
Proof.
  intros Hsep. unfold collect_sitemaps_line.
  change (PyStr.startswith "Sitemap:" ("Sitemap: " +:+ a +:+ ": " +:+ b)) with true.
  rewrite split_sitemap_line, split_colon_space_first by done.
  change (("Sitemap" :: a :: PyStr.split ": " b) !! 1) with (Some a).
  reflexivity.
Qed.

End RootLinesCut.

(** * Further properties of [process_links] *)

Lemma for_in_app {A S : Type} (xs ys : list A) (body : A -> S -> Py S) (s : S)
    (st : pystate) :
  for_in (xs ++ ys) body s st
  = match for_in xs body s st with
    | Ret (s', st') => for_in ys body s' st'
    | Raise e => Raise e
    | OutOfFuel => OutOfFuel
    end.
Proof.
  revert s st. induction xs as [|x xs IH]; intros s st; [done|].
  simpl. unfold bind. destruct (body x s st) as [[s1 st1]| |]; [apply IH|done..].
Qed.

(** A turn of the first loop on a row that is already decomposed. *)
Lemma rows_decomposed (p : string) (links todo done : list string) (m : nat) :
  links = done ++ todo ->
  foldl (row_step p) (m, decomposed p links) (imap (fun i l => (length done + i, l)) todo)
  = (Nat.max m (max_depth p todo), decomposed p links).
Proof.
  revert done m. induction todo as [|l todo IH]; intros done m Hlinks.
  - simpl. by rewrite Nat.max_0_r.
  - rewrite imap_cons. cbn [foldl].
    set (M := max_depth p links).
    set (k := length (split_url p l)).
    assert (Hk : k <= M).
    { apply max_depth_ge. rewrite Hlinks. apply elem_of_app. right. by left. }
    assert (Hstep : row_step p (m, decomposed p links) (length done + 0, l)
                    = (Nat.max m k, decomposed p links)).
    { unfold row_step. cbn [fst snd]. fold k. f_equal.
      unfold Frame.loc_set, decomposed. fold M.
      rewrite FrameFacts.ensure_columns_subdirs.
      replace (Nat.max M k) with M by lia. rewrite Nat.sub_diag.
      assert (Hid : forall d : list (list cell), map (fun row => row ++ replicate 0 None) d = d).
      { intros d. rewrite <- (map_id d) at 2. apply map_ext. intros row.
        simpl. apply app_nil_r. }
      rewrite Hid. rewrite Hlinks at 1 2. rewrite map_app, map_cons.
      replace (length done + 0)
        with (length (map (fun link => Some link :: padded M (split_url p link)) done))
        by (rewrite length_map; lia).
      unfold k at 1.
      rewrite FrameFacts.set_cells_subdirs; fold k.
      2:{ lia. }
      2:{ simpl. rewrite padded_length by done. lia. }
      do 3 f_equal.
      change (take 1 (Some l :: padded M (split_url p l))) with [Some l].
      change (drop (1 + k) (Some l :: padded M (split_url p l)))
        with (drop k (padded M (split_url p l))).
      unfold padded, k. by rewrite drop_app_length. }
    rewrite Hstep.
    erewrite imap_ext; [rewrite (IH (done ++ [l]) (Nat.max m k))|].
    + rewrite max_depth_cons. fold k. f_equal. lia.
    + by rewrite <- app_assoc.
    + intros i x _. simpl. f_equal. rewrite length_app. simpl. lia.
Qed.

Lemma links_effect_decomposed (p : string) (links : list string) :
  links_effect p links (decomposed p links) = decomposed p links.
Proof.
  unfold links_effect.
  assert (H := rows_decomposed p links links [] 0 eq_refl).
  cbn [length Nat.add Nat.max] in H.
  change (imap (fun i l => (i, l)) links) with (imap pair links) in H.
  rewrite H. cbn [fst snd]. apply fill_noop.
  intros d Hd. apply elem_of_seq in Hd.
  unfold decomposed. cbn [columns]. apply subdir_elem_of.
  unfold max_depth in *. lia.
Qed.

(** X10. [process_links] is idempotent: applied to a frame object that
    holds a table it has produced, it returns the reference and leaves
    the whole state, that frame included, as it was. *)
Theorem process_links_idempotent (st : pystate) (data_frame : nat)
    (links : list string) :
  heap st !! data_frame = Some (decomposed url_prefix links) ->
  process_links data_frame st = Ret (data_frame, st).
Proof.
  intros H. unfold process_links.
  rewrite (process_links_effect url_prefix data_frame st _ links H
             (FrameFacts.subdirs_NoDup _) (decomposed_links _ _)).
  by rewrite links_effect_decomposed, list_insert_id, with_heap_id.
Qed.

Lemma process_links_run (r : nat) (st : pystate) (df : DataFrame) :
  heap st !! r = Some df ->
  process_links r st
  = match for_in (Frame.iterrows df) (process_links_row url_prefix r) 0 st with
    | Ret (m, st1) =>
        match for_in (seq 0 m) (process_links_fill r) tt st1 with
        | Ret (_, st2) => Ret (r, st2)
        | Raise e => Raise e
        | OutOfFuel => OutOfFuel
        end
    | Raise e => Raise e
    | OutOfFuel => OutOfFuel
    end.
Proof.
  intros H. unfold process_links, process_links_with, bind, get_frame. rewrite H.
  destruct (for_in (Frame.iterrows df) _ 0 st) as [[m st1]| |]; [|done..].
  by destruct (for_in (seq 0 m) _ tt st1) as [[[] st2]| |].
Qed.

(** X11. The [Links] column is read row by row: on a frame without
    rows [process_links] returns at once and changes nothing, whatever
    the columns; on a frame with a row and without a [Links] column it
    raises KeyError. *)
Theorem process_links_needs_links_per_row (st : pystate) (data_frame : nat)
    (df : DataFrame) :
  heap st !! data_frame = Some df ->
  (data df = [] -> process_links data_frame st = Ret (data_frame, st))
  /\ (data df <> [] -> "Links" ∉ columns df ->
      process_links data_frame st = Raise KeyError).
Proof.
  intros H. rewrite (process_links_run _ _ _ H). unfold Frame.iterrows. split.
  - intros ->. reflexivity.
  - intros Hrows Hcol. destruct (data df) as [|row rows]; [done|].
    rewrite imap_cons. cbn [for_in]. unfold bind at 1.
    unfold process_links_row at 1.
    unfold Frame.series_get. by rewrite series_values_notin.
Qed.



(** * Further properties of the collection and the export *)

(** X13. When the constructor returns, the collection is ready for the
    export: every identifier is free of slashes and refers to a frame
    object that holds the decomposed table of some URL list, and the
    file system is as it was given. *)
Theorem constructor_collection_ok (web : string -> option string)
    (find_all_loc : string -> list string) (fuel : nat) (base_url : string)
    (disk : filesystem) (st : pystate) :
  WebSitemapScraper web find_all_loc fuel base_url disk = Ret (tt, st) ->
  collection_ok st /\ fs st = disk.
Proof.
  unfold WebSitemapScraper. intros H. split.
  - eapply collect_sitemaps_collection_ok; [exact H|apply collection_ok_init].
  - rewrite collect_sitemaps_run in H.
    apply collect_sitemaps_lines_keep in H as [H _]. exact H.
Qed.

Lemma write_all_twice (folder : string) (h : list DataFrame)
    (items : list (string * nat)) (fl : gmap string (list (list string))) :
  NoDup items.*1 ->
  (forall item, item ∈ items ->
     PyStr.char_in "/" item.1 = false /\ is_Some (h !! item.2)) ->
  write_all folder h items (write_all folder h items fl) = write_all folder h items fl.
Proof.
  intros Hnd Hok. apply map_eq. intros path.
  destruct (decide (path ∈ (fun item => csv_path folder item.1) <$> items)) as [Hin|Hout].
  - apply list_elem_of_fmap in Hin as ([identifier r] & -> & Hin).
    destruct (Hok _ Hin) as [_ [T HT]]. simpl in *.
    assert (Hslash : forall item, item ∈ items -> PyStr.char_in "/" item.1 = false)
      by (intros item Hitem; by destruct (Hok item Hitem)).
    by rewrite !(write_all_written folder h items _ identifier r T).
  - apply write_all_untouched. intros item Hitem ->.
    apply Hout, list_elem_of_fmap. by exists item.
Qed.

(** X14. Exporting again changes nothing: in a file system that is a
    tree, for a folder that is a directory or can be created, a first
    export returns, and a second export to the same folder returns and
    leaves the state, the file system included, exactly as the first
    left it. *)
Theorem export_to_csv_twice (folder : string) (st : pystate) :
  collection_ok st ->
  (forall identifier, identifier ∈ dom (sitemaps_frames st) ->
     PyStr.char_in NUL identifier = false) ->
  disk_ok (fs st) ->
  relpath folder = true ->
  folder ∈ dirs (fs st)
  \/ ((folder ∉ dom (files (fs st))) /\ dir_at (fs st) (parent_dir folder) = true) ->
  (forall identifier, identifier ∈ dom (sitemaps_frames st) ->
     csv_path folder identifier ∉ dirs (fs st)) ->
  exists st1,
    export_to_csv folder st = Ret (tt, st1)
    /\ export_to_csv folder st1 = Ret (tt, st1).
Proof.
  intros Hok Hnul _ Hrel Hfolder Hdirs. eexists. split; [by apply export_to_csv_run|].
  set (items := map_to_list (sitemaps_frames st)).
  assert (Hitems : forall item, item ∈ items ->
            PyStr.char_in "/" item.1 = false /\ is_Some (heap st !! item.2)).
  { intros [identifier r] Hin. apply elem_of_map_to_list in Hin.
    destruct (Hok _ _ Hin) as [Hslash [links Hlinks]]. split; [done|by eexists]. }
  rewrite export_to_csv_run.
  - unfold with_fs. simpl. fold items. do 3 f_equal. f_equal.
    + apply set_eq. intros x. rewrite !elem_of_union. tauto.
    + apply write_all_twice; [apply NoDup_fst_map_to_list|done].
  - exact Hok.
  - exact Hnul.
  - exact Hrel.
  - left. simpl. apply elem_of_union. left. by apply elem_of_singleton.
  - simpl. intros identifier Hid [E%elem_of_singleton|Hd]%elem_of_union.
    + apply elem_of_dom in Hid as [r Hr].
      apply csv_path_ne_folder in E; [done|by destruct (Hok _ _ Hr)].
    + by apply (Hdirs identifier).
Qed.

(** X15. The export does not tell a null from an empty segment: in the
    file of any table, the record of a URL made of the prefix and
    slashes only (the prefix itself is one) and the record of a URL
    outside the prefix have the same fields after the URL. *)
Theorem csv_null_like_empty_segment (links : list string) (i j : nat)
    (w u : string) :
  PyStr.strip "/" w = "" ->
  PyStr.startswith url_prefix u = false ->
  links !! i = Some (url_prefix +:+ w) ->
  links !! j = Some u ->
  exists fields,
    csv_of_links links !! S i = Some ((url_prefix +:+ w) :: fields)
    /\ csv_of_links links !! S j = Some (u :: fields).
Proof.
  intros Hw Hu Hi Hj.
  exists ("" :: replicate (max_depth url_prefix links - 1) "").
  assert (H1 : split_url url_prefix (url_prefix +:+ w) = [Some ""]).
  { unfold split_url.
    by rewrite PyStrFacts.startswith_app, PyStrFacts.drop_app, Hw. }
  assert (H2 : split_url url_prefix u = [None]).
  { unfold split_url. by rewrite Hu. }
  unfold csv_of_links. rewrite !lookup_cons.
  rewrite !list_lookup_fmap, Hi, Hj. simpl. by rewrite H1, H2.
Qed.

(** X16. The identifier of a sitemap is what follows the last slash of
    its URL: the URL is a directory part, empty or ending with a slash,
    followed by the identifier, and the identifier holds no slash; it
    is empty for a URL that ends with a slash. *)
Theorem identifier_is_last_component (u : string) :
  (exists dir,
     u = dir +:+ identifier_of u
     /\ PyStr.char_in "/" (identifier_of u) = false
     /\ (dir = "" \/ exists d, dir = d +:+ "/"))
  /\ (forall d, u = d +:+ "/" -> identifier_of u = "").
Proof.
  split.
  - pose proof (PyStrFacts.join_split_slash u) as Hjoin.
    pose proof (identifier_of_no_slash u) as Hslash.
    unfold identifier_of in *.
    destruct (PyStrFacts.split_last "/" u) as [x Hx]. rewrite Hx in *. simpl in *.
    apply last_Some in Hx as [pieces Hpieces]. rewrite Hpieces in Hjoin.
    destruct (join_slash_snoc pieces x) as (dir & Hdir & Hend).
    exists dir. split; [by rewrite <- Hjoin|]. by split.
  - intros d ->. unfold identifier_of. by rewrite split_trailing_slash.
Qed.

(** * Concrete instances of the further properties *)

Lemma collect_sitemaps_raises_only_index_error_witness :
  collect_sitemaps nospace_web loc_texts 1 example_base (init_state empty_disk)
    = Raise IndexError
  /\ (IndexError = IndexError
      /\ exists line,
           line ∈ PyStr.split newline (default "" (nospace_web (robots_url example_base)))
           /\ PyStr.startswith "Sitemap:" line = true
           /\ PyStr.split ": " line !! 1 = None).
Proof.
  split; [vm_compute; reflexivity|].
  apply (collect_sitemaps_raises_only_index_error nospace_web loc_texts 1
           example_base (init_state empty_disk) IndexError).
  vm_compute. reflexivity.
Defined.

Lemma collect_sitemaps_without_roots_witness :
  offline_web (robots_url example_base) = None
  /\ collect_sitemaps offline_web loc_texts 0 example_base (init_state empty_disk)
     = Ret (tt, logged (EvGet (robots_url example_base)) (init_state empty_disk)).
Proof.
  split; [reflexivity|].
  apply (collect_sitemaps_without_roots offline_web loc_texts 0 example_base).
  left. reflexivity.
Defined.

Lemma walker_keeps_frames_and_files_witness :
  walker_keeps example_state_sitemap example_state_gone
  /\ walker_keeps (init_state empty_disk) example_state.
Proof.
  split.
  - exact (proj1 (walker_keeps_frames_and_files example_web loc_texts)
             1 example_gone example_state_sitemap example_state_gone
             example_state_gone_run).
  - exact (proj2 (walker_keeps_frames_and_files example_web loc_texts)
             2 example_base (init_state empty_disk) example_state
             example_state_collect).
Defined.

Lemma example_sitemap_leaves (l : string) :
  l ∈ locs_of example_web loc_texts example_sitemap ->
  PyStr.endswith ".xml" l = false.
Proof.
  intros Hl. vm_compute in Hl.
  apply elem_of_cons in Hl as [->|Hl]; [reflexivity|].
  apply list_elem_of_singleton in Hl as ->. reflexivity.
Qed.

Lemma leaf_sitemap_single_request_witness :
  process_sitemap example_web loc_texts 1 example_sitemap (init_state empty_disk)
  = Ret (tt, stored (identifier_of example_sitemap)
               (decomposed url_prefix (locs_of example_web loc_texts example_sitemap))
               (with_log (init_state empty_disk)
                  (log (init_state empty_disk)
                   ++ EvGet example_sitemap
                      :: map (EvAppend example_sitemap)
                           (locs_of example_web loc_texts example_sitemap)))).
Proof.
  exact (leaf_sitemap_single_request example_web loc_texts 0 example_sitemap
           (init_state empty_disk) example_sitemap_leaves).
Defined.

Lemma process_sitemap_requests_every_listing_witness :
  exists tr, log example_state_index = log (init_state empty_disk) ++ tr
             /\ 1 <= requests_for example_index tr
             /\ forall l, PyStr.endswith ".xml" l = true ->
                   listings l (locs_of example_web loc_texts example_index)
                   <= requests_for l tr.
Proof.
  exact (process_sitemap_requests_every_listing example_web loc_texts 2 example_index
           (init_state empty_disk) example_state_index example_state_index_run).
Defined.

Lemma sitemap_line_round_trip_witness :
  str_contains ": " example_index = false
  /\ PyStr.strip PyStr.whitespace example_index = example_index
  /\ collect_sitemaps_line example_web loc_texts 2 ("Sitemap: " +:+ example_index) tt
       (init_state empty_disk)
     = process_sitemap example_web loc_texts 2 example_index (init_state empty_disk).
Proof.
  split; [reflexivity|]. split; [reflexivity|].
  exact (sitemap_line_round_trip example_web loc_texts 2 example_index
           (init_state empty_disk) eq_refl eq_refl).
Defined.

Lemma sitemap_line_cut_at_colon_space_witness :
  str_contains ": " "https://www.datacamp.com/a" = false
  /\ collect_sitemaps_line example_web loc_texts 1
       ("Sitemap: " +:+ "https://www.datacamp.com/a" +:+ ": " +:+ "b.xml") tt
       (init_state empty_disk)
     = process_sitemap example_web loc_texts 1
         (PyStr.strip PyStr.whitespace "https://www.datacamp.com/a")
         (init_state empty_disk).
Proof.
  split; [reflexivity|].
  exact (sitemap_line_cut_at_colon_space example_web loc_texts 1
           "https://www.datacamp.com/a" "b.xml" (init_state empty_disk) eq_refl).
Defined.

Lemma example_state_sitemap_frame :
  heap example_state_sitemap !! 0
  = Some (decomposed url_prefix
            ["https://www.datacamp.com/blog/2024/post"; "https://example.com/elsewhere"]).
Proof. vm_compute. reflexivity. Qed.

Lemma process_links_idempotent_witness :
  process_links 0 example_state_sitemap = Ret (0, example_state_sitemap).
Proof.
  exact (process_links_idempotent example_state_sitemap 0 _ example_state_sitemap_frame).
Defined.

Lemma process_links_needs_links_per_row_witness :
  process_links 0 (state_of_frame frame_without_rows)
    = Ret (0, state_of_frame frame_without_rows)
  /\ process_links 0 (state_of_frame frame_without_links) = Raise KeyError.
Proof.
  split.
  - exact (proj1 (process_links_needs_links_per_row (state_of_frame frame_without_rows)
                    0 frame_without_rows eq_refl) eq_refl).
  - apply (proj2 (process_links_needs_links_per_row (state_of_frame frame_without_links)
                    0 frame_without_links eq_refl)).
    + discriminate.
    + intros H. apply list_elem_of_singleton in H. discriminate H.
Defined.


Lemma constructor_collection_ok_witness :
  WebSitemapScraper example_web loc_texts 2 example_base empty_disk
    = Ret (tt, example_state)
  /\ collection_ok example_state /\ fs example_state = empty_disk.
Proof.
  split; [exact example_state_run|].
  exact (constructor_collection_ok example_web loc_texts 2 example_base empty_disk
           example_state example_state_run).
Defined.

Lemma export_to_csv_twice_witness :
  disk_ok (fs example_state)
  /\ relpath "sitemaps" = true
  /\ exists st1,
       export_to_csv "sitemaps" example_state = Ret (tt, st1)
       /\ export_to_csv "sitemaps" st1 = Ret (tt, st1).
Proof.
  split; [exact example_state_disk_ok|]. split; [exact relpath_sitemaps|].
  exact (export_to_csv_twice "sitemaps" example_state example_state_ok
           example_state_names example_state_disk_ok relpath_sitemaps
           (or_intror (conj (proj1 (example_state_free "sitemaps"))
                            (parent_dir_sitemaps (fs example_state))))
           (proj2 (example_state_free "sitemaps"))).
Defined.

Lemma csv_null_like_empty_segment_witness :
  exists fields,
    csv_of_links [url_prefix; "https://example.com/"] !! 1 = Some (url_prefix :: fields)
    /\ csv_of_links [url_prefix; "https://example.com/"] !! 2
       = Some ("https://example.com/" :: fields).
Proof.
  exact (csv_null_like_empty_segment [url_prefix; "https://example.com/"] 0 1
           "" "https://example.com/" eq_refl eq_refl eq_refl eq_refl).
Defined.

Lemma identifier_is_last_component_witness :
  identifier_of "https://www.datacamp.com/gone/" = "".
Proof.
  exact (proj2 (identifier_is_last_component "https://www.datacamp.com/gone/")
           "https://www.datacamp.com/gone" eq_refl).
Defined.

(** * The constructor and the export together *)

Section Constructor.

Variable web : string -> option string.
Variable find_all_loc : string -> list string.

Lemma collect_sitemaps_lines_return (lines : list string) :
  (forall line, line ∈ lines -> PyStr.startswith "Sitemap:" line = true ->
     exists field, PyStr.split ": " line !! 1 = Some field
                   /\ finite_acyclic web find_all_loc (PyStr.strip PyStr.whitespace field)) ->
  exists fuel, forall fuel' st, fuel <= fuel' ->
    exists st', for_in lines (collect_sitemaps_line web find_all_loc fuel') tt st
                = Ret (tt, st').
Proof.
  induction lines as [|line lines IH]; intros H.
  - exists 0. intros fuel' st _. by exists st.
  - destruct IH as [f1 Hf1]; [intros line' Hin; apply H; by right|].
    destruct (PyStr.startswith "Sitemap:" line) eqn:Estart.
    + destruct (H line (list_elem_of_here _ _) Estart) as (field & Hfield & Hacyclic).
      destruct (sn_terminates web find_all_loc _
                  (finite_acyclic_sn web find_all_loc _ Hacyclic)) as [f2 Hf2].
      exists (Nat.max f1 f2). intros fuel' st Hle.
      cbn [for_in]. unfold bind. unfold collect_sitemaps_line at 1.
      rewrite Estart, Hfield. unfold bind, or_raise, ret.
      destruct (Hf2 st) as [st1 Hst1].
      rewrite (process_sitemap_fuel_le web find_all_loc f2 fuel' _ _ _ ltac:(lia) Hst1).
      apply Hf1. lia.
    + exists f1. intros fuel' st Hle.
      cbn [for_in]. unfold bind. unfold collect_sitemaps_line at 1.
      rewrite Estart. unfold ret. by apply Hf1.
Qed.

(** X17. The constructor returns when robots.txt is well formed and
    the sitemaps are acyclic: if every line that starts with
    [Sitemap:] has a colon followed by a space, and the references
    below the sitemap it names are finite and acyclic, some depth of
    recursion lets [collect_sitemaps] return from every state. *)
Theorem collect_sitemaps_returns (base_url : string) :
  (forall line,
     line ∈ PyStr.split newline (default "" (web (robots_url base_url))) ->
     PyStr.startswith "Sitemap:" line = true ->
     exists field, PyStr.split ": " line !! 1 = Some field
                   /\ finite_acyclic web find_all_loc (PyStr.strip PyStr.whitespace field)) ->
  exists fuel, forall st, exists st',
    collect_sitemaps web find_all_loc fuel base_url st = Ret (tt, st').
Proof.
  intros H. destruct (collect_sitemaps_lines_return _ H) as [fuel Hfuel].
  exists fuel. intros st. rewrite collect_sitemaps_run. by apply Hfuel.
Qed.

(** X18. On an empty disk the export of a constructed scraper to a
    folder that is a plain name succeeds, when no identifier holds a
    NUL character, and creates the folder and exactly one file per
    identifier of the collection, and nothing else. *)
Theorem constructor_then_export (fuel : nat) (base_url folder : string) (st : pystate) :
  WebSitemapScraper web find_all_loc fuel base_url empty_disk = Ret (tt, st) ->
  (forall identifier, identifier ∈ dom (sitemaps_frames st) ->
     PyStr.char_in NUL identifier = false) ->
  name_ok folder = true ->
  exists st',
    export_to_csv folder st = Ret (tt, st')
    /\ dirs (fs st') = {[folder]}
    /\ forall path,
         path ∈ dom (files (fs st')) <->
         exists identifier,
           identifier ∈ dom (sitemaps_frames st) /\ path = csv_path folder identifier.
Proof.
  intros H Hnul Hname. unfold WebSitemapScraper in H.
  assert (Hok : collection_ok st)
    by (eapply collect_sitemaps_collection_ok; [exact H|apply collection_ok_init]).
  assert (Hfs : fs st = empty_disk).
  { rewrite collect_sitemaps_run in H.
    by apply collect_sitemaps_lines_keep in H as [H _]. }
  destruct (name_ok_relpath folder Hname) as [Hrel Hparent].
  eexists. split.
  - apply export_to_csv_run; [done|done|done|..]; rewrite Hfs.
    + right. split; [|by rewrite Hparent].
      cbn [files empty_disk]. rewrite dom_empty_L. apply not_elem_of_empty.
    + intros identifier _. apply not_elem_of_empty.
  - cbn [fs with_fs dirs files]. rewrite Hfs. cbn [dirs files empty_disk].
    split; [by rewrite (right_id_L ∅ (∪))|].
    intros path. rewrite elem_of_dom. split.
    + intros [content Hpath].
      destruct (decide (path ∈ (fun item => csv_path folder item.1)
                                 <$> map_to_list (sitemaps_frames st))) as [Hin|Hout].
      * apply list_elem_of_fmap in Hin as ([identifier r] & -> & Hin).
        apply elem_of_map_to_list in Hin. exists identifier.
        split; [|done]. apply elem_of_dom. by eexists.
      * rewrite write_all_untouched in Hpath; [by rewrite lookup_empty in Hpath|].
        intros item Hitem ->. apply Hout, list_elem_of_fmap. by exists item.
    + intros (identifier & [r Hr]%elem_of_dom & ->).
      destruct (Hok _ _ Hr) as [_ [links Hlinks]].
      erewrite write_all_written; [by eexists|apply NoDup_fst_map_to_list| |
                                   by apply elem_of_map_to_list|exact Hlinks].
      intros item Hitem. destruct item as [identifier' r'].
      apply elem_of_map_to_list in Hitem. by destruct (Hok _ _ Hitem).
Qed.

End Constructor.

Lemma example_roots_ok (line : string) :
  line ∈ PyStr.split newline (default "" (example_web (robots_url example_base))) ->
  PyStr.startswith "Sitemap:" line = true ->
  exists field, PyStr.split ": " line !! 1 = Some field
                /\ finite_acyclic example_web loc_texts (PyStr.strip PyStr.whitespace field).
Proof.
  intros Hin Hstart. vm_compute in Hin.
  apply elem_of_cons in Hin as [->|Hin]; [discriminate Hstart|].
  apply elem_of_cons in Hin as [->|Hin].
  - eexists. split; [reflexivity|]. exact example_finite_acyclic.
  - apply list_elem_of_singleton in Hin as ->.
    eexists. split; [reflexivity|].
    exists [example_gone]. split; [by left|]. split.
    + intros v l Hv [Hl _]%lists_example.
      apply list_elem_of_singleton in Hv. rewrite Hv in Hl. discriminate Hl.
    + intros v Hv Htc. apply list_elem_of_singleton in Hv. subst v.
      inversion Htc as [x y Hxy|x y z Hxy _]; subst;
        apply lists_example in Hxy as [Hxy _]; discriminate Hxy.
Qed.

Lemma collect_sitemaps_returns_witness :
  exists fuel, forall st, exists st',
    collect_sitemaps example_web loc_texts fuel example_base st = Ret (tt, st').
Proof.
  exact (collect_sitemaps_returns example_web loc_texts example_base example_roots_ok).
Defined.

Lemma constructor_then_export_witness :
  name_ok "sitemaps" = true
  /\ exists st',
       export_to_csv "sitemaps" example_state = Ret (tt, st')
       /\ dirs (fs st') = {["sitemaps"]}
       /\ forall path,
            path ∈ dom (files (fs st')) <->
            exists identifier,
              identifier ∈ dom (sitemaps_frames example_state)
              /\ path = csv_path "sitemaps" identifier.
Proof.
  split; [reflexivity|].
  exact (constructor_then_export example_web loc_texts 2 example_base "sitemaps"
           example_state example_state_run example_state_names eq_refl).
Defined.

(** * The export when the folder cannot be created *)

Example relpath_examples :
  relpath "sitemaps" = true /\ relpath "out/sitemaps" = true
  /\ relpath "" = false /\ relpath "out/" = false /\ relpath "/out" = false
  /\ relpath "./out" = false /\ relpath "out/../x" = false /\ relpath "a//b" = false.
Proof. repeat split; vm_compute; reflexivity. Qed.

Example parent_dir_examples :
  parent_dir "sitemaps" = "" /\ parent_dir "out/sitemaps" = "out"
  /\ parent_dir "a/b/c.csv" = "a/b".
Proof. repeat split; vm_compute; reflexivity. Qed.

Example ancestors_examples :
  ancestors "sitemaps" = [] /\ ancestors "a/b/c" = ["a"; "a/b"].
Proof. split; vm_compute; reflexivity. Qed.

Lemma walk_error_missing (disk : filesystem) (path : string) :
  (forall q, q ∈ ancestors path -> q ∉ dom (files disk)) ->
  walk_error disk path = FileNotFoundError.
Proof.
  intros H. unfold walk_error.
  destruct (existsb _ _) eqn:E; [|done].
  apply existsb_exists in E as (q & Hq%list_elem_of_In & Hfile).
  apply bool_decide_eq_true in Hfile. by apply H in Hq.
Qed.

Lemma walk_error_file (disk : filesystem) (path q : string) :
  q ∈ ancestors path -> q ∈ dom (files disk) ->
  walk_error disk path = NotADirectoryError.
Proof.
  intros Hq Hfile. unfold walk_error.
  destruct (existsb _ _) eqn:E; [done|].
  assert (E' : existsb (fun q => bool_decide (q ∈ dom (files disk))) (ancestors path) = true).
  { apply existsb_exists. exists q. split; [by apply list_elem_of_In|].
    by apply bool_decide_eq_true. }
  congruence.
Qed.

Lemma export_to_csv_mkdir (folder : string) (st : pystate) :
  folder ∉ dirs (fs st) ->
  export_to_csv folder st
  = match os_mkdir folder st with
    | Ret (_, st1) =>
        for_in (map_to_list (sitemaps_frames st1)) (export_to_csv_item folder) tt st1
    | Raise e => Raise e
    | OutOfFuel => OutOfFuel
    end.
Proof.
  intros H. unfold export_to_csv, bind, os_path_isdir.
  rewrite bool_decide_eq_false_2 by done. cbn [negb].
  by destruct (os_mkdir folder st) as [[[] st1]| |].
Qed.

(** X19. The export stops at [os.mkdir], before any file is written,
    when the folder is no directory and cannot be created.  In a file
    system that is a tree: the empty path raises FileNotFoundError; a
    folder that is a regular file raises FileExistsError; a path of the
    tree whose parent is no directory raises NotADirectoryError when a
    name on the way to it is a regular file, and FileNotFoundError when
    no such name is. *)
Theorem export_to_csv_mkdir_fails (folder : string) (st : pystate) :
  disk_ok (fs st) ->
  (folder = "" -> export_to_csv folder st = Raise FileNotFoundError)
  /\ (folder ∈ dom (files (fs st)) -> export_to_csv folder st = Raise FileExistsError)
  /\ (relpath folder = true -> dir_at (fs st) (parent_dir folder) = false ->
      (forall q, q ∈ ancestors folder -> q ∉ dom (files (fs st))) ->
      export_to_csv folder st = Raise FileNotFoundError)
  /\ (relpath folder = true -> dir_at (fs st) (parent_dir folder) = false ->
      forall q, q ∈ ancestors folder -> q ∈ dom (files (fs st)) ->
      export_to_csv folder st = Raise NotADirectoryError).
Proof.
  intros [Hd Hf].
  assert (Hmissing : relpath folder = true ->
            dir_at (fs st) (parent_dir folder) = false ->
            export_to_csv folder st = Raise (walk_error (fs st) folder)).
  { intros Hrel Hparent. rewrite export_to_csv_mkdir.
    - unfold os_mkdir. cbn zeta. rewrite (relpath_NUL _ Hrel).
      destruct (String.eqb_spec folder "") as [E|_]; [by apply relpath_nonempty in E|].
      by rewrite Hparent.
    - intros Hin. destruct (Hd _ Hin) as [_ H]. congruence. }
  split; [|split; [|split]].
  - intros ->. rewrite export_to_csv_mkdir; [done|].
    intros Hin. by destruct (Hd _ Hin) as [H _].
  - intros Hin. destruct (Hf _ Hin) as (Hrel & Hout & Hparent).
    rewrite export_to_csv_mkdir by done.
    unfold os_mkdir. cbn zeta. rewrite (relpath_NUL _ Hrel).
    destruct (String.eqb_spec folder "") as [E|_]; [by apply relpath_nonempty in E|].
    rewrite Hparent. cbn [negb].
    by rewrite (bool_decide_eq_true_2 _ Hin), orb_true_r.
  - intros Hrel Hparent Hfree. by rewrite Hmissing, walk_error_missing.
  - intros Hrel Hparent q Hq Hfile. by rewrite Hmissing, (walk_error_file _ _ q).
Qed.

Lemma disk_with_file_ok : disk_ok disk_with_file.
Proof.
  split; intros path Hpath; simpl in Hpath.
  - by apply not_elem_of_empty in Hpath.
  - rewrite dom_singleton_L in Hpath. apply elem_of_singleton in Hpath as ->.
    split; [reflexivity|]. split; [apply not_elem_of_empty|reflexivity].
Qed.

Lemma export_to_csv_mkdir_fails_witness :
  export_to_csv "" (init_state empty_disk) = Raise FileNotFoundError
  /\ export_to_csv "nodir/sub" (init_state empty_disk) = Raise FileNotFoundError
  /\ export_to_csv "notes" (init_state disk_with_file) = Raise FileExistsError
  /\ export_to_csv "notes/sub" (init_state disk_with_file) = Raise NotADirectoryError.
Proof.
  split; [|split; [|split]].
  - exact (proj1 (export_to_csv_mkdir_fails "" (init_state empty_disk) disk_ok_empty)
             eq_refl).
  - apply (proj1 (proj2 (proj2 (export_to_csv_mkdir_fails "nodir/sub"
                                  (init_state empty_disk) disk_ok_empty)))).
    + vm_compute. reflexivity.
    + vm_compute. reflexivity.
    + intros q _. cbn [fs init_state files empty_disk]. rewrite dom_empty_L.
      apply not_elem_of_empty.
  - apply (proj1 (proj2 (export_to_csv_mkdir_fails "notes"
                           (init_state disk_with_file) disk_with_file_ok))).
    cbn [fs init_state files disk_with_file]. rewrite dom_singleton_L.
    by apply elem_of_singleton.
  - apply (proj2 (proj2 (proj2 (export_to_csv_mkdir_fails "notes/sub"
                                  (init_state disk_with_file) disk_with_file_ok)))
             eq_refl eq_refl "notes").
    + by left.
    + cbn [fs init_state files disk_with_file]. rewrite dom_singleton_L.
      by apply elem_of_singleton.
Defined.

(** * A duplicated [Links] label *)

Lemma series_values_length (c : string) (cols : list string) (row : list cell) :
  length row = length cols ->
  length (Frame.series_values c (zip cols row))
  = length (filter (fun d => d = c) cols).
Proof.
  revert row. induction cols as [|d cols IH]; intros [|v row] Hlen; try done.
  simpl in Hlen. injection Hlen as Hlen. simpl.
  destruct (String.eqb_spec c d) as [->|Hne].
  - rewrite filter_cons_True by done. simpl. by rewrite IH.
  - rewrite filter_cons_False by (by intros ->). by apply IH.
Qed.

(** X20. A frame in which the label [Links] occurs more than once
    makes [process_links] raise AttributeError at its first row:
    [record["Links"]] is then a Series, which has no [startswith]. *)
Theorem process_links_duplicated_links (st : pystate) (data_frame : nat)
    (df : DataFrame) :
  heap st !! data_frame = Some df ->
  Forall (fun row => length row = length (columns df)) (data df) ->
  data df <> [] ->
  2 <= length (filter (fun c => c = "Links") (columns df)) ->
  process_links data_frame st = Raise AttributeError.
Proof.
  intros H Hrows Hdata Hdup. rewrite (process_links_run _ _ _ H).
  unfold Frame.iterrows. destruct (data df) as [|row rows]; [done|].
  apply Forall_cons in Hrows as [Hrow _].
  rewrite imap_cons. cbn [for_in]. unfold bind at 1.
  unfold process_links_row at 1. unfold Frame.series_get.
  pose proof (series_values_length "Links" (columns df) row Hrow) as Hlen.
  destruct (Frame.series_values "Links" (zip (columns df) row)) as [|v [|w vs]];
    simpl in Hlen; [lia|lia|reflexivity].
Qed.

Lemma process_links_duplicated_links_witness :
  process_links 0 (state_of_frame frame_with_two_links) = Raise AttributeError.
Proof.
  apply (process_links_duplicated_links (state_of_frame frame_with_two_links) 0
           frame_with_two_links eq_refl).
  - repeat constructor.
  - discriminate.
  - vm_compute. lia.
Defined.
